(** * MiEspejo backend: the habit-logging route handlers of [index.js]

    A shallow embedding of the Express route handlers of the repository
    (the listing [src/index.js] and the second listing, which adds
    [POST /habits]) and of the row store they talk to, followed by the
    properties of the handlers. *)

From Stdlib Require Import SpecFloat Ascii.
From stdpp Require Import base strings list gmap sorting.

Open Scope string_scope.

(** ** JavaScript values

    The values a handler can hold: what [express.json()] parses out of a
    request body (null, booleans, numbers, strings, arrays, objects) and
    [undefined], the value of a destructured field that is not in the body.
    Numbers are IEEE 754 doubles, kept in the Standard Library's
    specification format. *)

#[local] Unset Elimination Schemes.
Inductive value : Type :=
  | JUndefined
  | JNull
  | JBool (b : bool)
  | JNum (n : spec_float)
  | JStr (s : string)
  | JArr (items : list value)
  | JObj (fields : list (string * value)).
#[local] Set Elimination Schemes.

(** An object literal, in the order the source writes its properties. *)
Abbreviation object := (list (string * value)).

(** Equality of values is decidable; the store's [eq] filter uses it. *)
Definition float_eq_dec (a b : spec_float) : {a = b} + {a ≠ b}.
Proof.
  decide equality; first [apply Z.eq_dec | apply Pos.eq_dec | apply Bool.bool_dec].
Defined.

Definition value_eq_dec : ∀ v w : value, {v = w} + {v ≠ w}.
Proof.
  fix go 1. intros v w.
  destruct v as [ | | b | n | s | xs | fs], w as [ | | b' | n' | s' | ys | gs];
    try (right; discriminate); try (left; reflexivity).
  - destruct (Bool.bool_dec b b') as [-> | Hne]; [by left | right; congruence].
  - destruct (float_eq_dec n n') as [-> | Hne]; [by left | right; congruence].
  - destruct (String.string_dec s s') as [-> | Hne]; [by left | right; congruence].
  - assert (Hlist : {xs = ys} + {xs ≠ ys}).
    { revert xs ys. fix go_items 1. intros xs ys.
      destruct xs as [ | x xs], ys as [ | y ys];
        try (right; discriminate); try (left; reflexivity).
      destruct (go x y) as [-> | Hne]; [ | right; congruence].
      destruct (go_items xs ys) as [-> | Hne]; [by left | right; congruence]. }
    destruct Hlist as [-> | Hne]; [by left | right; congruence].
  - assert (Hlist : {fs = gs} + {fs ≠ gs}).
    { revert fs gs. fix go_fields 1. intros fs gs.
      destruct fs as [ | [k x] fs], gs as [ | [l y] gs];
        try (right; discriminate); try (left; reflexivity).
      destruct (String.string_dec k l) as [-> | Hne]; [ | right; congruence].
      destruct (go x y) as [-> | Hne]; [ | right; congruence].
      destruct (go_fields fs gs) as [-> | Hne]; [by left | right; congruence]. }
    destruct Hlist as [-> | Hne]; [by left | right; congruence].
Defined.

#[global] Instance value_eq_decision : EqDecision value := value_eq_dec.

(** [ToBoolean]: the falsy values are [undefined], [null], [false],
    [+0], [-0], [NaN] and the empty string. *)
Definition truthy (v : value) : bool :=
  match v with
  | JUndefined | JNull => false
  | JBool b => b
  | JNum (S754_zero _) | JNum S754_nan => false
  | JNum _ => true
  | JStr s => negb (String.eqb s "")
  | JArr _ | JObj _ => true
  end.

(** The operator [!]. *)
Definition js_not (v : value) : bool := negb (truthy v).

(** [x === undefined]. *)
Definition is_undefined (v : value) : bool :=
  match v with JUndefined => true | _ => false end.

(** The double for a non-negative integer literal, for examples. *)
Definition num_of_nat (n : nat) : value :=
  match Pos.of_nat n, n with
  | _, O => JNum (S754_zero false)
  | p, _ => JNum (S754_finite false p 0)
  end.

(** ** Requests and responses *)

(** [req.params] holds the strings captured by the route pattern.
    [req.body] is what [express.json()] left there: the properties of the
    parsed JSON object, or nothing at all ([undefined]) when the request
    carried no JSON body and the framework does not put an empty object
    in its place.  A parsed array has none of the properties read here
    and counts as the empty map. *)
Record Request : Type := mkRequest {
  params : gmap string string;
  body : option (gmap string value)
}.

(** [const { f } = req.params]. *)
Definition param (req : Request) (f : string) : value :=
  match params req !! f with
  | Some s => JStr s
  | None => JUndefined
  end.

(** The value [const { f } = req.body] binds [f] to; when [req.body] is
    [undefined] the destructuring throws instead (see
    [destructure_body]) and nothing is bound. *)
Definition field (req : Request) (f : string) : value :=
  match body req with
  | Some b =>
      match b !! f with
      | Some v => v
      | None => JUndefined
      end
  | None => JUndefined
  end.

Inductive Body : Type :=
  | Json (v : value)      (* res.json(v) *)
  | Text (s : string).    (* res.send(s) *)

Record Response : Type := mkResponse {
  status : nat;
  payload : Body
}.

(** [res.status(c).json(v)]; [res.json(v)] alone answers 200. *)
Definition res_json (c : nat) (v : value) : Response := mkResponse c (Json v).

(** [{ error: msg }] and [{ message: msg }]. *)
Definition error_obj (msg : string) : value := JObj [("error", JStr msg)].
Definition message_obj (msg : string) : value := JObj [("message", JStr msg)].

(** ** The row store as the handlers see it

    One constructor per request the Supabase client can be asked to send;
    a handler builds one by chaining [from], [select] / [insert] /
    [update], [eq], [order], [single] and awaits it. *)

Inductive Filter : Type :=
  | FEq (column : string) (v : value).        (* .eq(column, v) *)

Record Ordering : Type := mkOrdering {
  order_column : string;
  ascending : bool
}.

Inductive StoreCall : Type :=
  | Select (table columns : string) (filters : list Filter)
           (order : option Ordering)
  | Insert (table : string) (row : object) (returning : option string)
  | Update (table : string) (patch : object) (filters : list Filter)
  | Delete (table : string) (filters : list Filter).

(** What an awaited call resolves to: [{ data, error }], where [error] is
    [null] or an object with a [message] (the client reports a failed
    request this way instead of rejecting the promise). *)
Record StoreResult : Type := mkResult {
  data : value;
  error : option string
}.

Definition store_ok (d : value) : StoreResult := mkResult d None.
Definition store_error (msg : string) : StoreResult := mkResult JNull (Some msg).

(** ** Handler programs

    A handler reads the server clock ([new Date().toISOString()]), awaits
    store calls, and may throw an error carrying a [message]. *)

Inductive prog (R : Type) : Type :=
  | Ret (r : R)
  | Throw (message : string)
  | Now (k : string → prog R)
  | Await (q : StoreCall) (k : StoreResult → prog R).

Arguments Ret {R} r.
Arguments Throw {R} message.
Arguments Now {R} k.
Arguments Await {R} q k.

(** How an [async] handler ends: it has written its response, or its
    promise is rejected with an error and the handler has written
    nothing (what happens then is the framework's business). *)
Inductive outcome (A : Type) : Type :=
  | Done (a : A)
  | Thrown (message : string).

Arguments Done {A} a.
Arguments Thrown {A} message.

Fixpoint bind {A B} (p : prog A) (f : A → prog B) : prog B :=
  match p with
  | Ret a => f a
  | Throw m => Throw m
  | Now k => Now (λ t, bind (k t) f)
  | Await q k => Await q (λ r, bind (k r) f)
  end.

#[global] Instance prog_ret : MRet prog := @Ret.
#[global] Instance prog_bind : MBind prog := λ A B f p, bind p f.

Definition now : prog string := Now Ret.
Definition await (q : StoreCall) : prog StoreResult := Await q Ret.

(** [try { block } catch (err) { handler }], [handler] being given
    [err.message]. *)
Fixpoint try_catch {A} (block : prog A) (handler : string → prog A) : prog A :=
  match block with
  | Ret a => Ret a
  | Throw m => handler m
  | Now k => Now (λ t, try_catch (k t) handler)
  | Await q k => Await q (λ r, try_catch (k r) handler)
  end.

(** [const { first, ... } = req.body]: destructuring [undefined] throws a
    [TypeError] (the message is V8's). *)
Definition destructure_body (req : Request) (first : string) : prog unit :=
  match body req with
  | Some _ => Ret tt
  | None =>
      Throw ("Cannot destructure property '" +:+ first
             +:+ "' of 'req.body' as it is undefined.")
  end.

(** [data.id]: reading a property of [null] or [undefined] throws a
    [TypeError] (the message is V8's); an object yields its property, any
    other value has no [id]. *)
Fixpoint lookup_field (k : string) (fields : object) : value :=
  match fields with
  | [] => JUndefined
  | (k', v) :: rest => if String.eqb k k' then v else lookup_field k rest
  end.

Definition data_id (d : value) : prog value :=
  match d with
  | JUndefined => Throw "Cannot read properties of undefined (reading 'id')"
  | JNull => Throw "Cannot read properties of null (reading 'id')"
  | JObj fields => Ret (lookup_field "id" fields)
  | _ => Ret JUndefined
  end.

(** ** The route handlers *)

(** [GET /] *)
Definition root_handler (req : Request) : prog Response :=
  Ret (mkResponse 200 (Text "MiEspejo Backend is Active and connected! 🪞")).

(** [GET /habits/:userId] *)
Definition list_habits_handler (req : Request) : prog Response :=
  let userId := param req "userId" in
  if js_not userId then
    Ret (res_json 400 (error_obj "Falta el parámetro userId en la URL."))
  else
    try_catch
      (r ← await (Select "habit_types" "*"
                    [FEq "user_id" userId; FEq "is_active" (JBool true)]
                    (Some (mkOrdering "created_at" true)));
       match error r with
       | Some msg => Throw msg
       | None => Ret (res_json 200 (data r))
       end)
      (λ msg, Ret (res_json 500 (error_obj ("Error al obtener hábitos: " +:+ msg)))).

(** [POST /habits] (second listing only) *)
Definition create_habit_handler (req : Request) : prog Response :=
  _ ← destructure_body req "userId";
  let userId := field req "userId" in
  let nombre := field req "nombre" in
  let tipoRegistro := field req "tipoRegistro" in
  let metaDiaria := field req "metaDiaria" in
  if js_not userId || js_not nombre || js_not tipoRegistro then
    Ret (res_json 400
           (error_obj "Faltan campos obligatorios: userId, nombre o tipoRegistro."))
  else
    try_catch
      (r ← await (Insert "habit_types"
                    [("user_id", userId);
                     ("nombre", nombre);
                     ("tipo_registro", tipoRegistro);
                     ("meta_diaria", metaDiaria)]
                    None);
       match error r with
       | Some msg => Throw msg
       | None => Ret (res_json 201 (message_obj "Hábito creado correctamente"))
       end)
      (λ msg, Ret (res_json 500 (error_obj ("Error al crear hábito: " +:+ msg)))).

(** [POST /logs/event] *)
Definition log_event_handler (req : Request) : prog Response :=
  _ ← destructure_body req "userId";
  let userId := field req "userId" in
  let habitTypeId := field req "habitTypeId" in
  if js_not userId || js_not habitTypeId then
    Ret (res_json 400
           (error_obj "Faltan userId o habitTypeId en el cuerpo de la petición."))
  else
    try_catch
      (t ← now;
       r ← await (Insert "habit_logs"
                    [("user_id", userId);
                     ("habit_type_id", habitTypeId);
                     ("fecha_inicio", JStr t)]
                    None);
       match error r with
       | Some msg => Throw msg
       | None => Ret (res_json 201 (message_obj "Evento registrado"))
       end)
      (λ msg, Ret (res_json 500 (error_obj ("Error al registrar evento: " +:+ msg)))).

(** [POST /logs/session/start] *)
Definition start_session_handler (req : Request) : prog Response :=
  _ ← destructure_body req "userId";
  let userId := field req "userId" in
  let habitTypeId := field req "habitTypeId" in
  if js_not userId || js_not habitTypeId then
    Ret (res_json 400
           (error_obj "Faltan userId o habitTypeId en el cuerpo de la petición."))
  else
    try_catch
      (t ← now;
       r ← await (Insert "habit_logs"
                    [("user_id", userId);
                     ("habit_type_id", habitTypeId);
                     ("fecha_inicio", JStr t)]
                    (Some "id"));
       match error r with
       | Some msg => Throw msg
       | None =>
           id ← data_id (data r);
           Ret (res_json 201 (JObj [("logId", id)]))
       end)
      (λ msg, Ret (res_json 500 (error_obj ("Error al iniciar sesión: " +:+ msg)))).

(** [PUT /logs/session/end] *)
Definition end_session_handler (req : Request) : prog Response :=
  _ ← destructure_body req "logId";
  let logId := field req "logId" in
  let durationSeconds := field req "durationSeconds" in
  let notas := field req "notas" in
  if js_not logId || is_undefined durationSeconds then
    Ret (res_json 400
           (error_obj "Faltan logId o durationSeconds en el cuerpo de la petición."))
  else
    try_catch
      (t ← now;
       r ← await (Update "habit_logs"
                    [("fecha_fin", JStr t);
                     ("duracion_segundos", durationSeconds);
                     ("notas", notas)]
                    [FEq "id" logId]);
       match error r with
       | Some msg => Throw msg
       | None => Ret (res_json 200 (message_obj "Sesión finalizada correctamente"))
       end)
      (λ msg, Ret (res_json 500 (error_obj ("Error al finalizar sesión: " +:+ msg)))).

(** The five operations of the API and the handler of each. *)
Inductive Operation : Type :=
  | ListHabits | CreateHabit | LogEvent | StartSession | EndSession.

Definition handler (op : Operation) : Request → prog Response :=
  match op with
  | ListHabits => list_habits_handler
  | CreateHabit => create_habit_handler
  | LogEvent => log_event_handler
  | StartSession => start_session_handler
  | EndSession => end_session_handler
  end.

(** ** Running a handler

    A run resolves every clock reading and every awaited call: [run]
    executes a program against an environment given by a clock and a
    store, and records the events of the run and how it ends. *)

Inductive Event : Type :=
  | EvNow (t : string)
  | EvCall (q : StoreCall) (r : StoreResult).

(** The store calls of a run, in order. *)
Definition store_calls (tr : list Event) : list StoreCall :=
  omap (λ e, match e with EvCall q _ => Some q | EvNow _ => None end) tr.

Record World (W : Type) : Type := mkWorld {
  tick : W → string * W;
  exec : StoreCall → W → StoreResult * W
}.

Arguments mkWorld {W} tick exec.
Arguments tick {W} _ _.
Arguments exec {W} _ _ _.

Record Result (W R : Type) : Type := mkRun {
  trace : list Event;
  returned : R;
  final : W
}.

Arguments mkRun {W R} trace returned final.
Arguments trace {W R} _.
Arguments returned {W R} _.
Arguments final {W R} _.

Fixpoint run {W R} (world : World W) (p : prog R) (w : W)
  : Result W (outcome R) :=
  match p with
  | Ret r => mkRun [] (Done r) w
  | Throw m => mkRun [] (Thrown m) w
  | Now k =>
      let '(t, w1) := tick world w in
      let res := run world (k t) w1 in
      mkRun (EvNow t :: trace res) (returned res) (final res)
  | Await q k =>
      let '(a, w1) := exec world q w in
      let res := run world (k a) w1 in
      mkRun (EvCall q a :: trace res) (returned res) (final res)
  end.

(** A world that answers from a script: the clock always reads [t] and
    the store answers every call with [a], keeping the calls it saw. *)
Definition scripted (t : string) (a : StoreResult) : World (list StoreCall) :=
  mkWorld (λ seen, (t, seen)) (λ q seen, (a, (seen ++ [q])%list)).

(** [needle] occurs inside [hay]. *)
Definition substring_of (needle hay : string) : Prop :=
  ∃ before after, hay = before +:+ needle +:+ after.

(** ** What each operation requires

    The fields each operation's contract lists as required, the wording
    of its 400 answer and the prefix of its 500 answer. *)

Definition required_fields (op : Operation) : list string :=
  match op with
  | ListHabits => ["userId"]
  | CreateHabit => ["userId"; "nombre"; "tipoRegistro"]
  | LogEvent | StartSession => ["userId"; "habitTypeId"]
  | EndSession => ["logId"; "durationSeconds"]
  end.

(** The value the handler of [op] reads for field [f]: a path parameter
    for the list operation, a body property for the others. *)
Definition input (op : Operation) (req : Request) (f : string) : value :=
  match op with
  | ListHabits => param req f
  | _ => field req f
  end.

Definition validation_message (op : Operation) : string :=
  match op with
  | ListHabits => "Falta el parámetro userId en la URL."
  | CreateHabit => "Faltan campos obligatorios: userId, nombre o tipoRegistro."
  | LogEvent | StartSession =>
      "Faltan userId o habitTypeId en el cuerpo de la petición."
  | EndSession => "Faltan logId o durationSeconds en el cuerpo de la petición."
  end.

Definition failure_prefix (op : Operation) : string :=
  match op with
  | ListHabits => "Error al obtener hábitos"
  | CreateHabit => "Error al crear hábito"
  | LogEvent => "Error al registrar evento"
  | StartSession => "Error al iniciar sesión"
  | EndSession => "Error al finalizar sesión"
  end.

(** The answer every handler gives when validation fails. *)
Definition rejected (op : Operation) : Response :=
  res_json 400 (error_obj (validation_message op)).

(** ** A reference row store *)

Abbreviation row := (gmap string value).

(** What [JSON.stringify] makes of a value, read back: a number that is
    not finite becomes [null], [-0] becomes [0], [undefined] becomes
    [null] inside an array and is left out of an object. *)
Fixpoint wire (v : value) : value :=
  match v with
  | JUndefined => JNull
  | JNum S754_nan | JNum (S754_infinity _) => JNull
  | JNum (S754_zero _) => JNum (S754_zero false)
  | JArr items =>
      JArr ((fix each (xs : list value) : list value :=
               match xs with
               | [] => []
               | x :: xs' => wire x :: each xs'
               end) items)
  | JObj fields =>
      JObj ((fix each (fs : object) : object :=
               match fs with
               | [] => []
               | (k, x) :: fs' =>
                   if is_undefined x then each fs' else (k, wire x) :: each fs'
               end) fields)
  | _ => v
  end.

(** The body of the request the client sends for an object literal: the
    properties whose value is [undefined] are left out, the others are
    serialised. *)
Definition sent (o : object) : row :=
  list_to_map
    ((λ kv, (kv.1, wire kv.2)) <$> filter (λ kv, is_undefined kv.2 = false) o).

(** Modelled from the spec: the row-store collaborator (the hosted
    database behind the Supabase client) and its schema are not in the
    repository.  This is the in-memory store of the design notes, with
    the interface of section 4.1: filtered and ordered select, insert,
    update by filter.  What the database fills in for the columns an
    insert does not supply (ids, [created_at], [is_active], nulls) is
    the parameter [defaults] of the section below; values are stored as
    they arrive, without the casts of a typed column. *)
Record DB : Type := mkDB {
  habit_types : list row;
  habit_logs : list row;
  inserted : nat          (* how many rows were ever inserted *)
}.

Definition get_table (name : string) (db : DB) : option (list row) :=
  if String.eqb name "habit_types" then Some (habit_types db)
  else if String.eqb name "habit_logs" then Some (habit_logs db)
  else None.

Definition put_table (name : string) (rows : list row) (db : DB) : DB :=
  if String.eqb name "habit_types" then mkDB rows (habit_logs db) (inserted db)
  else if String.eqb name "habit_logs" then mkDB (habit_types db) rows (inserted db)
  else db.

Definition satisfies (f : Filter) (r : row) : Prop :=
  match f with
  | FEq c v => r !! c = Some v
  end.

#[global] Instance satisfies_dec f r : Decision (satisfies f r).
Proof. destruct f; simpl; apply _. Defined.

(** A row passes a chain of filters when it passes each of them. *)
Definition matches (filters : list Filter) (r : row) : Prop :=
  Forall (λ f, satisfies f r) filters.

#[global] Instance matches_dec filters r : Decision (matches filters r).
Proof. apply _. Defined.

(** Ordering by a column: timestamps and other strings compare
    bytewise; a row without a string in that column sorts first. *)
Definition sort_key (v : option value) : string :=
  match v with
  | Some (JStr s) => s
  | _ => ""
  end.

Definition row_leb (o : Ordering) (r1 r2 : row) : bool :=
  if ascending o
  then String.leb (sort_key (r1 !! order_column o)) (sort_key (r2 !! order_column o))
  else String.leb (sort_key (r2 !! order_column o)) (sort_key (r1 !! order_column o)).

Definition row_le (o : Ordering) (r1 r2 : row) : Prop := row_leb o r1 r2 = true.

#[global] Instance row_le_dec o : RelDecision (row_le o) :=
  λ r1 r2, decide (row_leb o r1 r2 = true).

(** A row as the JSON object the store returns: every column for ["*"],
    the named column otherwise. *)
Definition render (columns : string) (r : row) : value :=
  if String.eqb columns "*" then JObj (map_to_list r)
  else JObj [(columns, default JNull (r !! columns))].

Definition no_table (name : string) : StoreResult :=
  store_error ("Could not find the table '" +:+ name +:+ "'").

Section ReferenceStore.

Variable defaults : string → nat → row.

Definition select_rows (filters : list Filter) (order : option Ordering)
    (rows : list row) : list row :=
  let hits := filter (matches filters) rows in
  match order with
  | Some o => merge_sort (row_le o) hits
  | None => hits
  end.

(** The row an insert stores: the columns sent, and the store's
    defaults for the others. *)
Definition new_row (table : string) (o : object) (db : DB) : row :=
  sent o ∪ defaults table (inserted db).

Definition patch_row (patch : object) (filters : list Filter) (r : row) : row :=
  if decide (matches filters r) then sent patch ∪ r else r.

Definition db_exec (q : StoreCall) (db : DB) : StoreResult * DB :=
  match q with
  | Select table columns filters order =>
      match get_table table db with
      | None => (no_table table, db)
      | Some rows =>
          (store_ok (JArr (render columns <$> select_rows filters order rows)), db)
      end
  | Insert table o returning =>
      match get_table table db with
      | None => (no_table table, db)
      | Some rows =>
          let r := new_row table o db in
          (store_ok (match returning with
                     | Some c => render c r
                     | None => JNull
                     end),
           put_table table (rows ++ [r])%list
             (mkDB (habit_types db) (habit_logs db) (S (inserted db))))
      end
  | Update table patch filters =>
      match get_table table db with
      | None => (no_table table, db)
      | Some rows =>
          (store_ok JNull, put_table table (patch_row patch filters <$> rows) db)
      end
  | Delete table filters =>
      match get_table table db with
      | None => (no_table table, db)
      | Some rows =>
          (store_ok JNull,
           put_table table (filter (λ r, ¬ matches filters r) rows) db)
      end
  end.

(** The server with this store behind it; its clock reads [t]. *)
Definition memory_world (t : string) : World DB :=
  mkWorld (λ db, (t, db)) db_exec.

End ReferenceStore.

(** ** Routing

    [app.get(pattern, handler)] and its siblings register routes.  The
    matching is the framework's, for the patterns the listings use: a
    pattern is a sequence of [/]-separated segments; a literal segment
    matches itself, letter case ignored; a [:name] segment matches one
    non-empty segment, which is percent-decoded and bound in
    [req.params]; one trailing [/] is tolerated.  The router walks the
    routes in registration order: a route whose pattern does not match
    the path is skipped; when a captured segment cannot be decoded the
    framework answers 400 itself and no handler runs; a route of another
    method is skipped; the first route left runs its handler, and when
    none is left the framework answers 404. *)

Inductive Method : Type := GET | POST | PUT | DELETE.

Definition method_eqb (a b : Method) : bool :=
  match a, b with
  | GET, GET | POST, POST | PUT, PUT | DELETE, DELETE => true
  | _, _ => false
  end.

Inductive Segment : Type :=
  | Lit (s : string)
  | Param (name : string).

Fixpoint split_on (sep : ascii) (s : string) : list string :=
  match s with
  | EmptyString => [""]
  | String c rest =>
      if Ascii.eqb c sep then "" :: split_on sep rest
      else match split_on sep rest with
           | p :: ps => String c p :: ps
           | [] => [String c ""]
           end
  end.

Fixpoint strip_trailing_slash (segs : list string) : list string :=
  match segs with
  | [] => []
  | [s] => if String.eqb s "" then [] else [s]
  | s :: rest => s :: strip_trailing_slash rest
  end.

(** The segments after the leading [/]. *)
Definition segments (path : string) : option (list string) :=
  match split_on "/"%char path with
  | "" :: rest => Some (strip_trailing_slash rest)
  | _ => None
  end.

Definition parse_segment (s : string) : Segment :=
  match s with
  | String ":"%char name => Param name
  | _ => Lit s
  end.

Definition lower (c : ascii) : ascii :=
  let n := nat_of_ascii c in
  if Nat.leb 65 n && Nat.leb n 90 then ascii_of_nat (n + 32) else c.

Fixpoint lower_string (s : string) : string :=
  match s with
  | EmptyString => EmptyString
  | String c rest => String (lower c) (lower_string rest)
  end.

Inductive Match : Type :=
  | NoMatch
  | BadParam                                (* a capture that does not decode *)
  | Matched (ps : gmap string string).

Record Route : Type := mkRoute {
  route_method : Method;
  route_pattern : string;
  route_handler : Request → prog Response
}.

Record HttpRequest : Type := mkHttp {
  http_method : Method;
  http_path : string;
  http_json : option (gmap string value)    (* what express.json() leaves *)
}.

Inductive Routed : Type :=
  | NotFound                                (* the framework answers 404 *)
  | BadRequest                              (* the framework answers 400 *)
  | Handled (p : prog Response).

Section Routing.

(** [decodeURIComponent], the engine's: [None] when it throws on a
    malformed escape. *)
Variable decode : string → option string.

Fixpoint match_segments (pat : list Segment) (segs : list string) : Match :=
  match pat, segs with
  | [], [] => Matched ∅
  | Lit l :: pat', s :: segs' =>
      if String.eqb (lower_string l) (lower_string s)
      then match_segments pat' segs'
      else NoMatch
  | Param name :: pat', s :: segs' =>
      if String.eqb s "" then NoMatch
      else match match_segments pat' segs' with
           | Matched ps =>
               match decode s with
               | Some u => Matched (<[name := u]> ps)
               | None => BadParam
               end
           | other => other
           end
  | _, _ => NoMatch
  end.

Definition match_path (pattern path : string) : Match :=
  match segments pattern, segments path with
  | Some pat, Some segs => match_segments (parse_segment <$> pat) segs
  | _, _ => NoMatch
  end.

Fixpoint dispatch (app : list Route) (hreq : HttpRequest) : Routed :=
  match app with
  | [] => NotFound
  | r :: app' =>
      match match_path (route_pattern r) (http_path hreq) with
      | NoMatch => dispatch app' hreq
      | BadParam => BadRequest
      | Matched ps =>
          if method_eqb (route_method r) (http_method hreq)
          then Handled (route_handler r (mkRequest ps (http_json hreq)))
          else dispatch app' hreq
      end
  end.

End Routing.

(** The routes of [src/index.js], in registration order. *)
Definition app_index : list Route :=
  [ mkRoute GET "/" root_handler;
    mkRoute GET "/habits/:userId" list_habits_handler;
    mkRoute POST "/logs/event" log_event_handler;
    mkRoute POST "/logs/session/start" start_session_handler;
    mkRoute PUT "/logs/session/end" end_session_handler ].

(** The routes of the second listing, which adds [POST /habits]. *)
Definition app_full : list Route :=
  [ mkRoute GET "/" root_handler;
    mkRoute GET "/habits/:userId" list_habits_handler;
    mkRoute POST "/habits" create_habit_handler;
    mkRoute POST "/logs/event" log_event_handler;
    mkRoute POST "/logs/session/start" start_session_handler;
    mkRoute PUT "/logs/session/end" end_session_handler ].

(** ** Small string tests used in the statements *)

Fixpoint is_prefix (p s : string) : bool :=
  match p, s with
  | EmptyString, _ => true
  | String a p', String b s' => Ascii.eqb a b && is_prefix p' s'
  | String _ _, EmptyString => false
  end.

Fixpoint is_infix (needle hay : string) : bool :=
  is_prefix needle hay ||
  match hay with
  | EmptyString => false
  | String _ hay' => is_infix needle hay'
  end.

(** The object the handler of [op] destructures exists: [req.params]
    always does, [req.body] when a JSON body was parsed. *)
Definition destructurable (op : Operation) (req : Request) : Prop :=
  match op with
  | ListHabits => True
  | _ => is_Some (body req)
  end.

(** A required field is missing from a request when the object the
    handler reads it from has no such property. *)
Definition missing (op : Operation) (req : Request) (f : string) : Prop :=
  match op with
  | ListHabits => params req !! f = None
  | _ => body req ≫= (λ b, b !! f) = None
  end.


(** The columns a call writes. *)
Definition written_columns (q : StoreCall) : list string :=
  match q with
  | Insert _ o _ => o.*1
  | Update _ patch _ => patch.*1
  | Select _ _ _ _ | Delete _ _ => []
  end.

Definition is_delete (q : StoreCall) : bool :=
  match q with Delete _ _ => true | _ => false end.

(** ** Further vocabulary for the statements *)

(** The test each handler makes before its [try] block, negated: the
    request goes on to the store. *)
Definition passes_validation (op : Operation) (req : Request) : bool :=
  match op with
  | ListHabits => truthy (param req "userId")
  | CreateHabit =>
      truthy (field req "userId") && truthy (field req "nombre")
      && truthy (field req "tipoRegistro")
  | LogEvent | StartSession =>
      truthy (field req "userId") && truthy (field req "habitTypeId")
  | EndSession =>
      truthy (field req "logId")
      && negb (is_undefined (field req "durationSeconds"))
  end.

(** The clock readings of a run, in order. *)
Definition clock_reads (tr : list Event) : list string :=
  omap (λ e, match e with EvNow t => Some t | EvCall _ _ => None end) tr.

Definition call_table (q : StoreCall) : string :=
  match q with
  | Select table _ _ _ | Insert table _ _ | Update table _ _ | Delete table _ =>
      table
  end.

Definition is_select (q : StoreCall) : bool :=
  match q with Select _ _ _ _ => true | _ => false end.

Definition is_insert (q : StoreCall) : bool :=
  match q with Insert _ _ _ => true | _ => false end.

Definition is_update (q : StoreCall) : bool :=
  match q with Update _ _ _ => true | _ => false end.

(** ** Start-up

    The top of each listing, up to [app.listen]: the environment is read,
    the two store settings are checked, and the process either exits with
    code 1 after two lines on the error stream, or calls [createClient]
    and then [app.listen].  [createClient] is the client library's and
    may throw (on a URL it does not accept); the exception is not caught
    and the process dies before [app.listen] is called. *)

(** [process.env.NAME]: a string, or [undefined] when the variable is
    not set. *)
Definition env_var (env : gmap string string) (name : string) : value :=
  match env !! name with
  | Some s => JStr s
  | None => JUndefined
  end.

(** The operator [||]. *)
Definition js_or (a b : value) : value := if truthy a then a else b.

Inductive Startup : Type :=
  | Exited (code : nat) (stderr : list string)   (* process.exit(code) *)
  | Crashed (message : string)                   (* createClient threw *)
  | Listen (port : value).                       (* app.listen(port, ...) is called *)

Section Startup.

Variable create_client : value → value → outcome unit.

Definition startup (env : gmap string string) : Startup :=
  let port := js_or (env_var env "PORT") (num_of_nat 3000) in
  let supabaseUrl := env_var env "SUPABASE_URL" in
  let supabaseKey := env_var env "SUPABASE_SERVICE_ROLE_KEY" in
  if js_not supabaseUrl || js_not supabaseKey then
    Exited 1
      ["❌ Error: Las variables SUPABASE_URL y/o SUPABASE_SERVICE_ROLE_KEY no están configuradas.";
       "Asegúrate de configurar estas variables en el Dashboard de Render."]
  else
    match create_client supabaseUrl supabaseKey with
    | Thrown m => Crashed m
    | Done _ => Listen port
    end.

End Startup.

(** * Properties *)

(** ** Strings *)

Lemma is_prefix_spec p s : is_prefix p s = true → ∃ rest, s = p +:+ rest.
Proof.
  revert s. induction p as [ | a p IH]; intros s H.
  - exists s. done.
  - destruct s as [ | b s]; [done | ]. simpl in H.
    apply andb_prop in H as [Hab Hp]. apply Ascii.eqb_eq in Hab as ->.
    destruct (IH _ Hp) as [rest ->]. exists rest. done.
Qed.

Lemma is_infix_spec needle hay : is_infix needle hay = true → substring_of needle hay.
Proof.
  induction hay as [ | c hay IH]; simpl; intros H.
  - rewrite orb_false_r in H. apply is_prefix_spec in H as [rest ->].
    exists "", rest. done.
  - apply orb_prop in H as [H | H].
    + apply is_prefix_spec in H as [rest ->]. exists "", rest. done.
    + destruct (IH H) as (before & after & ->).
      exists (String c before), after. done.
Qed.

Lemma append_assoc (a b c : string) : (a +:+ b) +:+ c = a +:+ b +:+ c.
Proof.
  induction a as [ | x a IH]; [done | ].
  change (String x ((a +:+ b) +:+ c) = String x (a +:+ b +:+ c)). by f_equal.
Qed.

Lemma substring_of_suffix before s : substring_of s (before +:+ s).
Proof.
  exists before, "". f_equal.
  induction s as [ | c s IH]; [done | ].
  change (String c s = String c (s +:+ "")). by f_equal.
Qed.

(** ** Validation *)

Ltac split_fields H :=
  repeat (apply elem_of_cons in H as [? | H]);
  try (apply elem_of_nil in H; destruct H);
  simplify_eq.

Ltac unfold_handlers :=
  unfold handler, list_habits_handler, create_habit_handler, log_event_handler,
    start_session_handler, end_session_handler, input in *.

Ltac bool_simpl :=
  repeat (rewrite orb_true_r || rewrite orb_true_l || rewrite orb_false_r
          || rewrite orb_false_l).

Lemma required_fields_named (op : Operation) (f : string) :
  f ∈ required_fields op → substring_of f (validation_message op).
Proof.
  intros Hin. apply is_infix_spec.
  destruct op; simpl in Hin; split_fields Hin; vm_compute; reflexivity.
Qed.

Lemma validation_message_nonempty (op : Operation) : validation_message op ≠ "".
Proof. destruct op; discriminate. Qed.

Lemma destructure_ok (req : Request) (first : string) :
  is_Some (body req) → destructure_body req first = Ret tt.
Proof. intros [b Hb]. unfold destructure_body. by rewrite Hb. Qed.

(** Without a parsed body the destructuring at the top of a handler
    throws: nothing is awaited and no response is written. *)
Lemma no_body_throws (op : Operation) (req : Request) :
  op ≠ ListHabits → body req = None →
  ∃ m, handler op req = Throw m.
Proof.
  intros Hop Hb. destruct op; try done;
    unfold_handlers; unfold destructure_body; rewrite Hb; by eexists.
Qed.

(** A falsy value in a field the handler tests with [!] makes it return
    the 400 answer at once. *)
Lemma falsy_rejects (op : Operation) (req : Request) (f : string) :
  destructurable op req →
  f ∈ required_fields op → f ≠ "durationSeconds" →
  truthy (input op req f) = false →
  handler op req = Ret (rejected op).
Proof.
  intros Hb Hin Hne Hfalsy.
  destruct op; simpl in Hin, Hb; split_fields Hin; try done;
    unfold_handlers; rewrite ?destructure_ok by done;
    unfold js_not; rewrite Hfalsy; simpl; bool_simpl; done.
Qed.

Lemma undefined_duration_rejects (req : Request) :
  is_Some (body req) →
  is_undefined (field req "durationSeconds") = true →
  handler EndSession req = Ret (rejected EndSession).
Proof.
  intros Hb Hund. unfold_handlers. rewrite destructure_ok by done.
  rewrite Hund. bool_simpl. done.
Qed.

Lemma missing_input (op : Operation) (req : Request) (f : string) :
  missing op req f → input op req f = JUndefined.
Proof.
  unfold missing, input, param, field.
  destruct op; try (intros ->; done);
    destruct (body req) as [b | ]; simpl; try done; by intros ->.
Qed.

(** When the object a handler destructures exists, a request that lacks
    a required field is answered 400 with the operation's validation
    message, which is not empty and names the field, and no store call is
    made: the run has no event and leaves the environment as it was. *)
Lemma missing_field_rejected (op : Operation) (req : Request) (f : string)
    {W} (world : World W) (w : W) :
  destructurable op req →
  f ∈ required_fields op → missing op req f →
  let res := run world (handler op req) w in
  returned res = Done (res_json 400 (error_obj (validation_message op))) ∧
  validation_message op ≠ "" ∧
  substring_of f (validation_message op) ∧
  trace res = [] ∧
  final res = w.
Proof.
  intros Hb Hin Hmiss res.
  assert (Hrej : handler op req = Ret (rejected op)).
  { destruct (decide (f = "durationSeconds")) as [-> | Hne].
    - destruct op; simpl in Hin; split_fields Hin; try done.
      apply undefined_duration_rejects; [done | ].
      pose proof (missing_input _ _ _ Hmiss) as Hin'. simpl in Hin'.
      by rewrite Hin'.
    - apply (falsy_rejects op req f Hb Hin Hne).
      by rewrite (missing_input _ _ _ Hmiss). }
  subst res. rewrite Hrej. simpl.
  split_and!; try done.
  - apply validation_message_nonempty.
  - by apply required_fields_named.
Qed.

(** ** The run of each handler once validation has passed *)

#[local] Arguments param : simpl never.
#[local] Arguments field : simpl never.

Lemma truthy_field_body (req : Request) (f : string) :
  truthy (field req f) = true → is_Some (body req).
Proof. unfold field. destruct (body req); [by eexists | done]. Qed.

Ltac run_accepted :=
  unfold_handlers; unfold js_not;
  match goal with
  | H : truthy (field ?req _) = true |- _ =>
      rewrite ?(destructure_ok req) by exact (truthy_field_body _ _ H)
  | _ => idtac
  end;
  repeat match goal with H : truthy _ = true |- _ => rewrite H; clear H end;
  repeat match goal with H : is_undefined _ = false |- _ => rewrite H; clear H end;
  cbn;
  repeat (match goal with
          | H : tick _ _ = _ |- _ => rewrite H
          | H : exec _ _ _ = _ |- _ => rewrite H
          end; cbn).

Lemma list_habits_run (req : Request) {W} (world : World W) (w w1 : W)
    (a : StoreResult) :
  truthy (param req "userId") = true →
  exec world (Select "habit_types" "*"
                [FEq "user_id" (param req "userId"); FEq "is_active" (JBool true)]
                (Some (mkOrdering "created_at" true))) w = (a, w1) →
  run world (handler ListHabits req) w =
    mkRun [EvCall (Select "habit_types" "*"
                     [FEq "user_id" (param req "userId");
                      FEq "is_active" (JBool true)]
                     (Some (mkOrdering "created_at" true))) a]
          (Done (match error a with
                 | Some m => res_json 500 (error_obj ("Error al obtener hábitos: " +:+ m))
                 | None => res_json 200 (data a)
                 end)) w1.
Proof.
  intros Hu Hexec. run_accepted. by destruct (error a).
Qed.

Lemma create_habit_run (req : Request) {W} (world : World W) (w w1 : W)
    (a : StoreResult) :
  truthy (field req "userId") = true →
  truthy (field req "nombre") = true →
  truthy (field req "tipoRegistro") = true →
  exec world (Insert "habit_types"
                [("user_id", field req "userId");
                 ("nombre", field req "nombre");
                 ("tipo_registro", field req "tipoRegistro");
                 ("meta_diaria", field req "metaDiaria")] None) w = (a, w1) →
  run world (handler CreateHabit req) w =
    mkRun [EvCall (Insert "habit_types"
                     [("user_id", field req "userId");
                      ("nombre", field req "nombre");
                      ("tipo_registro", field req "tipoRegistro");
                      ("meta_diaria", field req "metaDiaria")] None) a]
          (Done (match error a with
                 | Some m => res_json 500 (error_obj ("Error al crear hábito: " +:+ m))
                 | None => res_json 201 (message_obj "Hábito creado correctamente")
                 end)) w1.
Proof.
  intros Hu Hn Ht Hexec. run_accepted. by destruct (error a).
Qed.

Lemma log_event_run (req : Request) {W} (world : World W) (w w1 w2 : W)
    (t : string) (a : StoreResult) :
  truthy (field req "userId") = true →
  truthy (field req "habitTypeId") = true →
  tick world w = (t, w1) →
  exec world (Insert "habit_logs"
                [("user_id", field req "userId");
                 ("habit_type_id", field req "habitTypeId");
                 ("fecha_inicio", JStr t)] None) w1 = (a, w2) →
  run world (handler LogEvent req) w =
    mkRun [EvNow t;
           EvCall (Insert "habit_logs"
                     [("user_id", field req "userId");
                      ("habit_type_id", field req "habitTypeId");
                      ("fecha_inicio", JStr t)] None) a]
          (Done (match error a with
                 | Some m => res_json 500 (error_obj ("Error al registrar evento: " +:+ m))
                 | None => res_json 201 (message_obj "Evento registrado")
                 end)) w2.
Proof.
  intros Hu Hh Htick Hexec. run_accepted. by destruct (error a).
Qed.

Lemma start_session_run (req : Request) {W} (world : World W) (w w1 w2 : W)
    (t : string) (a : StoreResult) :
  truthy (field req "userId") = true →
  truthy (field req "habitTypeId") = true →
  tick world w = (t, w1) →
  exec world (Insert "habit_logs"
                [("user_id", field req "userId");
                 ("habit_type_id", field req "habitTypeId");
                 ("fecha_inicio", JStr t)] (Some "id")) w1 = (a, w2) →
  run world (handler StartSession req) w =
    mkRun [EvNow t;
           EvCall (Insert "habit_logs"
                     [("user_id", field req "userId");
                      ("habit_type_id", field req "habitTypeId");
                      ("fecha_inicio", JStr t)] (Some "id")) a]
          (Done (match error a with
                 | Some m => res_json 500 (error_obj ("Error al iniciar sesión: " +:+ m))
                 | None =>
                     match data a with
                     | JUndefined =>
                         res_json 500
                           (error_obj ("Error al iniciar sesión: " +:+
                              "Cannot read properties of undefined (reading 'id')"))
                     | JNull =>
                         res_json 500
                           (error_obj ("Error al iniciar sesión: " +:+
                              "Cannot read properties of null (reading 'id')"))
                     | JObj o => res_json 201 (JObj [("logId", lookup_field "id" o)])
                     | _ => res_json 201 (JObj [("logId", JUndefined)])
                     end
                 end)) w2.
Proof.
  intros Hu Hh Htick Hexec. run_accepted.
  destruct (error a); [done | ]. by destruct (data a).
Qed.

Lemma end_session_run (req : Request) {W} (world : World W) (w w1 w2 : W)
    (t : string) (a : StoreResult) :
  truthy (field req "logId") = true →
  is_undefined (field req "durationSeconds") = false →
  tick world w = (t, w1) →
  exec world (Update "habit_logs"
                [("fecha_fin", JStr t);
                 ("duracion_segundos", field req "durationSeconds");
                 ("notas", field req "notas")]
                [FEq "id" (field req "logId")]) w1 = (a, w2) →
  run world (handler EndSession req) w =
    mkRun [EvNow t;
           EvCall (Update "habit_logs"
                     [("fecha_fin", JStr t);
                      ("duracion_segundos", field req "durationSeconds");
                      ("notas", field req "notas")]
                     [FEq "id" (field req "logId")]) a]
          (Done (match error a with
                 | Some m => res_json 500 (error_obj ("Error al finalizar sesión: " +:+ m))
                 | None => res_json 200 (message_obj "Sesión finalizada correctamente")
                 end)) w2.
Proof.
  intros Hl Hd Htick Hexec. run_accepted. by destruct (error a).
Qed.

(** ** The three ways a run can go *)

Lemma valid_destructurable (op : Operation) (req : Request) :
  passes_validation op req = true → destructurable op req.
Proof.
  destruct op; simpl; [done | | | | ]; intros H;
    repeat (apply andb_prop in H as [H ?]);
    by apply truthy_field_body in H.
Qed.

Lemma invalid_rejected (op : Operation) (req : Request) :
  destructurable op req →
  passes_validation op req = false → handler op req = Ret (rejected op).
Proof.
  intros Hb. destruct op; simpl; intros H.
  - by apply (falsy_rejects ListHabits req "userId");
      [ | apply list_elem_of_here | | ].
  - apply andb_false_iff in H as [H | H]; [apply andb_false_iff in H as [H | H] | ].
    + by apply (falsy_rejects CreateHabit req "userId");
        [ | apply list_elem_of_here | | ].
    + by apply (falsy_rejects CreateHabit req "nombre");
        [ | apply list_elem_of_further, list_elem_of_here | | ].
    + by apply (falsy_rejects CreateHabit req "tipoRegistro");
        [ | do 2 apply list_elem_of_further; apply list_elem_of_here | | ].
  - apply andb_false_iff in H as [H | H].
    + by apply (falsy_rejects LogEvent req "userId");
        [ | apply list_elem_of_here | | ].
    + by apply (falsy_rejects LogEvent req "habitTypeId");
        [ | apply list_elem_of_further, list_elem_of_here | | ].
  - apply andb_false_iff in H as [H | H].
    + by apply (falsy_rejects StartSession req "userId");
        [ | apply list_elem_of_here | | ].
    + by apply (falsy_rejects StartSession req "habitTypeId");
        [ | apply list_elem_of_further, list_elem_of_here | | ].
  - apply andb_false_iff in H as [H | H].
    + by apply (falsy_rejects EndSession req "logId");
        [ | apply list_elem_of_here | | ].
    + apply undefined_duration_rejects; [done | ]. by destruct (is_undefined _).
Qed.

(** The response and the events of an accepted request, operation by
    operation: exactly one store call is awaited, after at most a clock
    reading. *)
Lemma valid_run (op : Operation) (req : Request) {W} (world : World W) (w : W) :
  passes_validation op req = true →
  ∃ clock q a resp w2,
    run world (handler op req) w =
      mkRun (clock ++ [EvCall q a])%list (Done resp) w2 ∧
    store_calls clock = [] ∧
    clock_reads (clock ++ [EvCall q a])%list = clock_reads clock ∧
    (length (clock_reads clock) ≤ 1)%nat ∧
    (op = ListHabits ∨ op = CreateHabit → clock = []) ∧
    is_delete q = false ∧
    (∀ m, error a = Some m →
          resp = res_json 500 (error_obj (failure_prefix op +:+ ": " +:+ m))) ∧
    (error a = None →
       status resp = (match op with
                      | ListHabits | EndSession => 200
                      | _ => 201
                      end)
       ∨ (op = StartSession ∧ status resp = 500)) ∧
    call_table q = (match op with
                    | ListHabits | CreateHabit => "habit_types"
                    | _ => "habit_logs"
                    end) ∧
    (match op with
     | ListHabits => is_select q
     | EndSession => is_update q
     | _ => is_insert q
     end) = true ∧
    (∀ c, c ∈ written_columns q → c = "fecha_fin" ∨ c = "duracion_segundos" →
          op = EndSession) ∧
    (∀ o ret, q = Insert "habit_logs" o ret →
       ∃ t, clock = [EvNow t] ∧
            o = [("user_id", field req "userId");
                 ("habit_type_id", field req "habitTypeId");
                 ("fecha_inicio", JStr t)]) ∧
    (op = EndSession →
       ∃ t, clock = [EvNow t] ∧
            q = Update "habit_logs"
                  [("fecha_fin", JStr t);
                   ("duracion_segundos", field req "durationSeconds");
                   ("notas", field req "notas")]
                  [FEq "id" (field req "logId")]).
Proof.
  intros Hv. destruct op; simpl in Hv.
  - erewrite list_habits_run; [ | done | apply surjective_pairing ].
    eexists [], _, _, _, _. split_and!; try done; try (simpl; lia).
    + intros m ->. done.
    + intros ->. by left.
    + intros c Hc. simpl in Hc. by apply elem_of_nil in Hc.
  - apply andb_prop in Hv as [Hv Ht]. apply andb_prop in Hv as [Hu Hn].
    erewrite create_habit_run; [ | done | done | done | apply surjective_pairing ].
    eexists [], _, _, _, _. split_and!; try done; try (simpl; lia).
    + intros m ->. done.
    + intros ->. by left.
    + intros c Hc Hor. simpl in Hc. split_fields Hc; by destruct Hor.
  - apply andb_prop in Hv as [Hu Hh].
    erewrite log_event_run;
      [ | done | done | apply surjective_pairing | apply surjective_pairing ].
    eexists [EvNow _], _, _, _, _. split_and!; try done; try (simpl; lia).
    + by intros [? | ?].
    + intros m ->. done.
    + intros ->. by left.
    + intros c Hc Hor. simpl in Hc. split_fields Hc; by destruct Hor.
    + intros o ret Hq. injection Hq as <- <-. by eexists.
  - apply andb_prop in Hv as [Hu Hh].
    erewrite start_session_run;
      [ | done | done | apply surjective_pairing | apply surjective_pairing ].
    eexists [EvNow _], _, _, _, _. split_and!; try done; try (simpl; lia).
    + by intros [? | ?].
    + intros m ->. done.
    + intros ->. destruct (data _); auto.
    + intros c Hc Hor. simpl in Hc. split_fields Hc; by destruct Hor.
    + intros o ret Hq. injection Hq as <- <-. by eexists.
  - apply andb_prop in Hv as [Hl Hd]. apply negb_true_iff in Hd.
    erewrite end_session_run;
      [ | done | done | apply surjective_pairing | apply surjective_pairing ].
    eexists [EvNow _], _, _, _, _. split_and!; try done; try (simpl; lia).
    + by intros [? | ?].
    + intros m ->. done.
    + intros ->. by left.
    + intros _. by eexists.
Qed.

(** Every run of every handler: the destructuring throws, or the request
    is rejected before anything happens, or it is accepted. *)
Lemma run_cases (op : Operation) (req : Request) {W} (world : World W) (w : W) :
  (op ≠ ListHabits ∧ body req = None ∧
   ∃ m, run world (handler op req) w = mkRun [] (Thrown m) w) ∨
  (destructurable op req ∧ passes_validation op req = false ∧
   run world (handler op req) w = mkRun [] (Done (rejected op)) w) ∨
  passes_validation op req = true.
Proof.
  destruct (passes_validation op req) eqn:Hv; [by right; right | ].
  assert (Hcase : op = ListHabits ∨ op ≠ ListHabits) by (destruct op; auto).
  destruct Hcase as [-> | Hop].
  - right; left. split_and!; try done. by rewrite invalid_rejected.
  - destruct (body req) as [b | ] eqn:Hb.
    + right; left.
      assert (Hd : destructurable op req) by (destruct op; simpl; by rewrite ?Hb).
      split_and!; try done. by rewrite invalid_rejected.
    + left. destruct (no_body_throws op req Hop Hb) as [m Hm].
      split_and!; try done. exists m. by rewrite Hm.
Qed.

Lemma store_calls_app (tr1 tr2 : list Event) :
  store_calls (tr1 ++ tr2)%list = (store_calls tr1 ++ store_calls tr2)%list.
Proof. apply omap_app. Qed.

Lemma store_calls_elem (q : StoreCall) (a : StoreResult) (tr : list Event) :
  EvCall q a ∈ tr → q ∈ store_calls tr.
Proof.
  intros Hin. unfold store_calls. apply list_elem_of_omap.
  exists (EvCall q a). done.
Qed.

(** ** End session (C1) *)

(** C1, as stated, fails: a body whose [logId] is present but is the
    number 0 is answered 400 although [durationSeconds] is present too. *)
Lemma end_session_zero_logId_rejected :
  let b : gmap string value := {[ "logId" := num_of_nat 0;
                                  "durationSeconds" := num_of_nat 120 ]} in
  let req := mkRequest ∅ (Some b) in
  is_Some (b !! "logId") ∧
  is_Some (b !! "durationSeconds") ∧
  run (scripted "2025-01-01T00:00:00.000Z" (store_ok JNull))
      (handler EndSession req) [] =
    mkRun [] (Done (res_json 400
                      (error_obj "Faltan logId o durationSeconds en el cuerpo de la petición.")))
          [].
Proof. split_and!; [by eexists | by eexists | vm_compute; reflexivity]. Qed.

(** C1, amended: when [logId] is truthy and [durationSeconds] is not
    [undefined] (0 and [null] included), the handler reads the clock and
    awaits exactly one update of [habit_logs], filtered on [id = logId],
    that sets [fecha_fin] to the clock reading, [duracion_segundos] to
    [durationSeconds] and [notas] to the supplied [notas]; it never
    answers 400, and answers 200 with the confirmation message when the
    store reports no error. *)
Theorem end_session_accepted (req : Request) {W} (world : World W) (w w1 w2 : W)
    (t : string) (a : StoreResult) :
  truthy (field req "logId") = true →
  is_undefined (field req "durationSeconds") = false →
  tick world w = (t, w1) →
  let q := Update "habit_logs"
             [("fecha_fin", JStr t);
              ("duracion_segundos", field req "durationSeconds");
              ("notas", field req "notas")]
             [FEq "id" (field req "logId")] in
  exec world q w1 = (a, w2) →
  let res := run world (handler EndSession req) w in
  trace res = [EvNow t; EvCall q a] ∧
  store_calls (trace res) = [q] ∧
  final res = w2 ∧
  (∃ resp, returned res = Done resp ∧ status resp ≠ 400) ∧
  (error a = None →
   returned res =
     Done (res_json 200 (message_obj "Sesión finalizada correctamente"))).
Proof.
  intros Hl Hd Htick q Hexec res. subst res q.
  rewrite (end_session_run req world w w1 w2 t a Hl Hd Htick Hexec). simpl.
  split_and!; try done.
  - eexists. split; [reflexivity | ]. by destruct (error a).
  - by intros ->.
Qed.

Lemma end_session_accepted_witness :
  let req := mkRequest ∅ (Some {[ "logId" := num_of_nat 42;
                                  "durationSeconds" := num_of_nat 0 ]}) in
  let q := Update "habit_logs"
             [("fecha_fin", JStr "2025-01-01T00:00:00.000Z");
              ("duracion_segundos", field req "durationSeconds");
              ("notas", field req "notas")]
             [FEq "id" (field req "logId")] in
  let res := run (scripted "2025-01-01T00:00:00.000Z" (store_ok JNull))
                 (handler EndSession req) [] in
  trace res = [EvNow "2025-01-01T00:00:00.000Z"; EvCall q (store_ok JNull)] ∧
  store_calls (trace res) = [q] ∧
  final res = [q] ∧
  (∃ resp, returned res = Done resp ∧ status resp ≠ 400) ∧
  (error (store_ok JNull) = None →
   returned res =
     Done (res_json 200 (message_obj "Sesión finalizada correctamente"))).
Proof.
  intros req q.
  apply (end_session_accepted req
           (scripted "2025-01-01T00:00:00.000Z" (store_ok JNull))
           [] [] [q] "2025-01-01T00:00:00.000Z" (store_ok JNull));
    vm_compute; reflexivity.
Defined.

(** ** Store failures (C5) *)

(** C5: when the store answers a handler's call with an error, the
    handler answers 500 with the single field [error] holding the
    operation's Spanish prefix, [": "] and the store's message, which is
    therefore a substring of it, and that call is the only store call of
    the run. *)
Theorem store_error_surfaces (op : Operation) (req : Request)
    {W} (world : World W) (w : W) (q : StoreCall) (a : StoreResult) (m : string) :
  EvCall q a ∈ trace (run world (handler op req) w) →
  error a = Some m →
  let res := run world (handler op req) w in
  returned res =
    Done (res_json 500 (error_obj (failure_prefix op +:+ ": " +:+ m))) ∧
  substring_of m (failure_prefix op +:+ ": " +:+ m) ∧
  store_calls (trace res) = [q].
Proof.
  intros Hin Herr res. subst res.
  destruct (run_cases op req world w)
    as [(_ & _ & m0 & Hrun) | [(_ & _ & Hrun) | Hv]].
  - rewrite Hrun in Hin. simpl in Hin. by apply elem_of_nil in Hin.
  - rewrite Hrun in Hin. simpl in Hin. by apply elem_of_nil in Hin.
  - destruct (valid_run op req world w Hv)
      as (clock & q0 & a0 & resp & w2 & Hrun & Hclock & _ & _ & _ & _ & H500 & _).
    rewrite Hrun in *. simpl in *.
    apply elem_of_app in Hin as [Hin | Hin].
    + apply store_calls_elem in Hin. rewrite Hclock in Hin.
      by apply elem_of_nil in Hin.
    + apply list_elem_of_singleton in Hin. injection Hin as -> ->.
      split_and!.
      * by rewrite (H500 m Herr).
      * rewrite <- append_assoc. apply substring_of_suffix.
      * rewrite store_calls_app, Hclock. done.
Qed.

Lemma store_error_surfaces_witness :
  let req := mkRequest ∅ (Some {[ "userId" := JStr "u1";
                                  "habitTypeId" := JStr "h1" ]}) in
  let res := run (scripted "2025-01-01T00:00:00.000Z" (store_error "connection refused"))
                 (handler StartSession req) [] in
  returned res =
    Done (res_json 500 (error_obj "Error al iniciar sesión: connection refused")) ∧
  substring_of "connection refused" "Error al iniciar sesión: connection refused" ∧
  store_calls (trace res) =
    [Insert "habit_logs"
       [("user_id", JStr "u1"); ("habit_type_id", JStr "h1");
        ("fecha_inicio", JStr "2025-01-01T00:00:00.000Z")] (Some "id")].
Proof.
  intros req res.
  apply (store_error_surfaces StartSession req
           (scripted "2025-01-01T00:00:00.000Z" (store_error "connection refused"))
           []
           (Insert "habit_logs"
              [("user_id", JStr "u1"); ("habit_type_id", JStr "h1");
               ("fecha_inicio", JStr "2025-01-01T00:00:00.000Z")] (Some "id"))
           (store_error "connection refused") "connection refused").
  - vm_compute. apply list_elem_of_further, list_elem_of_here.
  - reflexivity.
Defined.

(** ** Falsy fields (C9) *)

(** C9: a required field of a parsed body (or the path parameter) that
    holds a falsy value (0, the empty string, [null], [false]) is
    rejected exactly like an absent one: the answer is the operation's
    400 answer and the run has no event.  Only [durationSeconds] is
    compared with [undefined] instead: with a truthy [logId], the
    end-session handler reaches the store exactly when [durationSeconds]
    is not [undefined], so [null] and 0 pass. *)
Theorem falsy_field_rejected :
  (∀ (op : Operation) (req : Request) (f : string) W (world : World W) (w : W),
     destructurable op req →
     f ∈ required_fields op → f ≠ "durationSeconds" →
     truthy (input op req f) = false →
     run world (handler op req) w = mkRun [] (Done (rejected op)) w) ∧
  (∀ (req : Request) W (world : World W) (w : W),
     truthy (field req "logId") = true →
     (is_undefined (field req "durationSeconds") = false ↔
      store_calls (trace (run world (handler EndSession req) w)) ≠ [])) ∧
  truthy (num_of_nat 0) = false ∧ truthy (JStr "") = false ∧
  truthy JNull = false ∧ truthy (JBool false) = false ∧
  is_undefined JNull = false ∧ is_undefined (num_of_nat 0) = false.
Proof.
  split_and!; try done.
  - intros op req f W world w Hb Hin Hne Hfalsy.
    by rewrite (falsy_rejects op req f Hb Hin Hne Hfalsy).
  - intros req W world w Hl. split.
    + intros Hd.
      erewrite end_session_run;
        [ | done | done | apply surjective_pairing | apply surjective_pairing ].
      done.
    + destruct (is_undefined (field req "durationSeconds")) eqn:Hd; [ | done].
      rewrite (undefined_duration_rejects req (truthy_field_body _ _ Hl) Hd).
      simpl. done.
Qed.

Lemma falsy_field_rejected_witness :
  let world := scripted "2025-01-01T00:00:00.000Z" (store_ok JNull) in
  run world
      (handler EndSession
         (mkRequest ∅ (Some {[ "logId" := num_of_nat 0;
                               "durationSeconds" := num_of_nat 5 ]})))
      [] = mkRun [] (Done (rejected EndSession)) [] ∧
  store_calls
    (trace (run world
              (handler EndSession
                 (mkRequest ∅ (Some {[ "logId" := JStr "7";
                                       "durationSeconds" := JNull ]})))
              [])) ≠ [].
Proof.
  intros world. split.
  - apply (proj1 falsy_field_rejected EndSession
             (mkRequest ∅ (Some {[ "logId" := num_of_nat 0;
                                   "durationSeconds" := num_of_nat 5 ]}))
             "logId").
    + by eexists.
    + apply list_elem_of_here.
    + discriminate.
    + vm_compute. reflexivity.
  - apply (proj1 (proj2 falsy_field_rejected)
             (mkRequest ∅ (Some {[ "logId" := JStr "7";
                                   "durationSeconds" := JNull ]})));
      vm_compute; reflexivity.
Defined.

(** ** The reference store *)

Lemma is_undefined_truthy (v : value) : truthy v = true → is_undefined v = false.
Proof. by destruct v. Qed.

(** Strings, booleans, [null] and finite numbers other than [-0] are
    serialised as they are. *)
Lemma wire_plain :
  (∀ s, wire (JStr s) = JStr s) ∧
  (∀ b, wire (JBool b) = JBool b) ∧
  wire JNull = JNull ∧
  (∀ s m e, wire (JNum (S754_finite s m e)) = JNum (S754_finite s m e)) ∧
  wire (JNum (S754_zero false)) = JNum (S754_zero false).
Proof. done. Qed.

Lemma sent_nil (c : string) : sent [] !! c = None.
Proof. done. Qed.

Lemma sent_cons (k : string) (v : value) (o : object) (c : string) :
  sent ((k, v) :: o) !! c =
    if decide (k = c)
    then (if is_undefined v then sent o !! c else Some (wire v))
    else sent o !! c.
Proof.
  unfold sent. rewrite filter_cons. simpl.
  destruct (is_undefined v) eqn:Hv.
  - rewrite decide_False by done. by case_decide.
  - rewrite decide_True by done. rewrite fmap_cons, list_to_map_cons. simpl.
    rewrite lookup_insert. done.
Qed.

Lemma matches_two (c1 c2 : string) (v1 v2 : value) (r : row) :
  matches [FEq c1 v1; FEq c2 v2] r ↔ r !! c1 = Some v1 ∧ r !! c2 = Some v2.
Proof.
  unfold matches. rewrite !Forall_cons, Forall_nil. simpl. tauto.
Qed.

Lemma matches_one (c : string) (v : value) (r : row) :
  matches [FEq c v] r ↔ r !! c = Some v.
Proof.
  unfold matches. rewrite Forall_cons, Forall_nil. simpl. tauto.
Qed.

Lemma row_le_total (o : Ordering) : Total (row_le o).
Proof.
  intros r1 r2. unfold row_le, row_leb.
  destruct (ascending o); apply String.leb_total.
Qed.

Lemma select_rows_perm (filters : list Filter) (order : option Ordering)
    (rows : list row) :
  select_rows filters order rows ≡ₚ filter (matches filters) rows.
Proof.
  unfold select_rows. destruct order; [apply merge_sort_Permutation | done].
Qed.

Lemma select_rows_sorted (filters : list Filter) (o : Ordering) (rows : list row) :
  Sorted (row_le o) (select_rows filters (Some o) rows).
Proof.
  unfold select_rows. apply (@Sorted_merge_sort _ (row_le o) _ (row_le_total o)).
Qed.

(** ** Listing habit types (C6) *)

(** C6: for a non-empty [userId] the list handler awaits exactly one
    call, a select of every column of [habit_types] filtered on
    [user_id = userId] and [is_active = true] and ordered by [created_at]
    ascending, and answers 200 with the data the store returns.  On the
    reference store that data is the array of exactly the rows of
    [habit_types] with that [user_id] and [is_active = true], sorted by
    [created_at], and the store is left unchanged. *)
Theorem list_habits_selects (req : Request) (u : string) :
  params req !! "userId" = Some u → u ≠ "" →
  let q := Select "habit_types" "*"
             [FEq "user_id" (JStr u); FEq "is_active" (JBool true)]
             (Some (mkOrdering "created_at" true)) in
  (∀ W (world : World W) (w : W),
     let res := run world (handler ListHabits req) w in
     trace res = [EvCall q (exec world q w).1] ∧
     final res = (exec world q w).2 ∧
     (error (exec world q w).1 = None →
      returned res = Done (res_json 200 (data (exec world q w).1)))) ∧
  (∀ (defaults : string → nat → row) (t : string) (db : DB),
     let res := run (memory_world defaults t) (handler ListHabits req) db in
     ∃ rows : list row,
       returned res = Done (res_json 200 (JArr (render "*" <$> rows))) ∧
       rows ≡ₚ filter (λ r, r !! "user_id" = Some (JStr u) ∧
                             r !! "is_active" = Some (JBool true))
                      (habit_types db) ∧
       Sorted (λ r1 r2, String.leb (sort_key (r1 !! "created_at"))
                                   (sort_key (r2 !! "created_at")) = true) rows ∧
       final res = db).
Proof.
  intros Hu Hne q.
  assert (Hp : param req "userId" = JStr u) by (unfold param; by rewrite Hu).
  assert (Ht : truthy (param req "userId") = true).
  { rewrite Hp. simpl. by destruct u. }
  split.
  - intros W world w res. subst res.
    erewrite list_habits_run; [ | done | apply surjective_pairing ].
    rewrite Hp. fold q. simpl. split_and!; try done. by intros ->.
  - intros defaults t db res. subst res.
    erewrite list_habits_run; [ | done | apply surjective_pairing ].
    rewrite Hp. fold q. simpl.
    exists (select_rows [FEq "user_id" (JStr u); FEq "is_active" (JBool true)]
              (Some (mkOrdering "created_at" true)) (habit_types db)).
    split_and!; try done.
    + rewrite select_rows_perm.
      erewrite list_filter_iff; [done | ]. intros r. apply matches_two.
    + apply (select_rows_sorted _ (mkOrdering "created_at" true)).
Qed.

Lemma list_habits_selects_witness :
  let req := mkRequest {[ "userId" := "u1" ]} None in
  let q := Select "habit_types" "*"
             [FEq "user_id" (JStr "u1"); FEq "is_active" (JBool true)]
             (Some (mkOrdering "created_at" true)) in
  (∀ W (world : World W) (w : W),
     let res := run world (handler ListHabits req) w in
     trace res = [EvCall q (exec world q w).1] ∧
     final res = (exec world q w).2 ∧
     (error (exec world q w).1 = None →
      returned res = Done (res_json 200 (data (exec world q w).1)))) ∧
  (∀ (defaults : string → nat → row) (t : string) (db : DB),
     let res := run (memory_world defaults t) (handler ListHabits req) db in
     ∃ rows : list row,
       returned res = Done (res_json 200 (JArr (render "*" <$> rows))) ∧
       rows ≡ₚ filter (λ r, r !! "user_id" = Some (JStr "u1") ∧
                             r !! "is_active" = Some (JBool true))
                      (habit_types db) ∧
       Sorted (λ r1 r2, String.leb (sort_key (r1 !! "created_at"))
                                   (sort_key (r2 !! "created_at")) = true) rows ∧
       final res = db).
Proof.
  intros req.
  apply (list_habits_selects req "u1"); [vm_compute; reflexivity | discriminate].
Defined.

(** ** Creating then listing a habit type (C3) *)

Ltac sent_lookup :=
  repeat (rewrite sent_cons; case_decide; simplify_eq; []);
  rewrite ?sent_nil.

Lemma new_habit_row (defaults : string → nat → row) (db : DB)
    (u n k m : value) :
  truthy u = true → truthy n = true → truthy k = true →
  let r := new_row defaults "habit_types"
             [("user_id", u); ("nombre", n); ("tipo_registro", k);
              ("meta_diaria", m)] db in
  r !! "user_id" = Some (wire u) ∧
  r !! "nombre" = Some (wire n) ∧
  r !! "tipo_registro" = Some (wire k) ∧
  r !! "meta_diaria" =
    (if is_undefined m then defaults "habit_types" (inserted db) !! "meta_diaria"
     else Some (wire m)) ∧
  ∀ c, c ≠ "user_id" → c ≠ "nombre" → c ≠ "tipo_registro" → c ≠ "meta_diaria" →
       r !! c = defaults "habit_types" (inserted db) !! c.
Proof.
  intros Hu Hn Hk r. subst r. unfold new_row.
  apply is_undefined_truthy in Hu, Hn, Hk.
  split_and!.
  - apply lookup_union_Some_l. sent_lookup. by rewrite Hu.
  - apply lookup_union_Some_l. sent_lookup. by rewrite Hn.
  - apply lookup_union_Some_l. sent_lookup. by rewrite Hk.
  - destruct (is_undefined m) eqn:Hm.
    + apply lookup_union_r. sent_lookup. by rewrite Hm.
    + apply lookup_union_Some_l. sent_lookup. by rewrite Hm.
  - intros c H1 H2 H3 H4. apply lookup_union_r.
    rewrite !sent_cons, sent_nil. by repeat case_decide.
Qed.



(** ** Starting a session (C7) *)

Lemma new_log_row (defaults : string → nat → row) (db : DB) (u h : value)
    (t : string) :
  truthy u = true → truthy h = true →
  let r := new_row defaults "habit_logs"
             [("user_id", u); ("habit_type_id", h); ("fecha_inicio", JStr t)] db in
  r !! "user_id" = Some (wire u) ∧
  r !! "habit_type_id" = Some (wire h) ∧
  r !! "fecha_inicio" = Some (JStr t) ∧
  ∀ c, c ≠ "user_id" → c ≠ "habit_type_id" → c ≠ "fecha_inicio" →
       r !! c = defaults "habit_logs" (inserted db) !! c.
Proof.
  intros Hu Hh r. subst r. unfold new_row.
  apply is_undefined_truthy in Hu, Hh.
  split_and!.
  - apply lookup_union_Some_l. sent_lookup. by rewrite Hu.
  - apply lookup_union_Some_l. sent_lookup. by rewrite Hh.
  - apply lookup_union_Some_l. by sent_lookup.
  - intros c H1 H2 H3. apply lookup_union_r.
    rewrite !sent_cons, sent_nil. by repeat case_decide.
Qed.

(** C7: with truthy [userId] and [habitTypeId] the start-session handler
    reads the clock and awaits exactly one insert into [habit_logs] of a
    row with [user_id], [habit_type_id] and [fecha_inicio] = the clock
    reading and no other column, asking for the [id] of the new row; when
    the store returns that row without error the answer is 201 with
    [{ logId }] holding its [id].  On the reference store exactly one row
    is appended to [habit_logs]; it holds those three values as
    serialised, its [fecha_fin] and [duracion_segundos] are whatever the
    store gives an unsupplied column, and [logId] is its [id]. *)
Theorem start_session_inserts (req : Request) :
  truthy (field req "userId") = true →
  truthy (field req "habitTypeId") = true →
  (∀ W (world : World W) (w w1 w2 : W) (t : string) (a : StoreResult),
     tick world w = (t, w1) →
     let q := Insert "habit_logs"
                [("user_id", field req "userId");
                 ("habit_type_id", field req "habitTypeId");
                 ("fecha_inicio", JStr t)] (Some "id") in
     exec world q w1 = (a, w2) →
     let res := run world (handler StartSession req) w in
     trace res = [EvNow t; EvCall q a] ∧
     final res = w2 ∧
     (∀ o, error a = None → data a = JObj o →
           returned res =
             Done (res_json 201 (JObj [("logId", lookup_field "id" o)])))) ∧
  (∀ (defaults : string → nat → row) (t : string) (db : DB),
     let res := run (memory_world defaults t) (handler StartSession req) db in
     ∃ r : row,
       final res = mkDB (habit_types db) (habit_logs db ++ [r])%list
                        (S (inserted db)) ∧
       r !! "user_id" = Some (wire (field req "userId")) ∧
       r !! "habit_type_id" = Some (wire (field req "habitTypeId")) ∧
       r !! "fecha_inicio" = Some (JStr t) ∧
       r !! "fecha_fin" = defaults "habit_logs" (inserted db) !! "fecha_fin" ∧
       r !! "duracion_segundos" =
         defaults "habit_logs" (inserted db) !! "duracion_segundos" ∧
       returned res =
         Done (res_json 201 (JObj [("logId", default JNull (r !! "id"))]))).
Proof.
  intros Hu Hh. split.
  - intros W world w w1 w2 t a Htick q Hexec res. subst res q.
    rewrite (start_session_run req world w w1 w2 t a Hu Hh Htick Hexec). simpl.
    split_and!; try done. intros o -> ->. done.
  - intros defaults t db res. subst res.
    erewrite start_session_run;
      [ | done | done | apply surjective_pairing | apply surjective_pairing ].
    cbn.
    destruct (new_log_row defaults db _ _ t Hu Hh) as (H1 & H2 & H3 & Hrest).
    eexists. split; [reflexivity | ]. split_and!; try done.
    + by apply Hrest.
    + by apply Hrest.
Qed.

Lemma start_session_inserts_witness :
  let req := mkRequest ∅ (Some {[ "userId" := JStr "u1";
                                  "habitTypeId" := JStr "h1" ]}) in
  (∀ W (world : World W) (w w1 w2 : W) (t : string) (a : StoreResult),
     tick world w = (t, w1) →
     let q := Insert "habit_logs"
                [("user_id", field req "userId");
                 ("habit_type_id", field req "habitTypeId");
                 ("fecha_inicio", JStr t)] (Some "id") in
     exec world q w1 = (a, w2) →
     let res := run world (handler StartSession req) w in
     trace res = [EvNow t; EvCall q a] ∧
     final res = w2 ∧
     (∀ o, error a = None → data a = JObj o →
           returned res =
             Done (res_json 201 (JObj [("logId", lookup_field "id" o)])))) ∧
  (∀ (defaults : string → nat → row) (t : string) (db : DB),
     let res := run (memory_world defaults t) (handler StartSession req) db in
     ∃ r : row,
       final res = mkDB (habit_types db) (habit_logs db ++ [r])%list
                        (S (inserted db)) ∧
       r !! "user_id" = Some (wire (field req "userId")) ∧
       r !! "habit_type_id" = Some (wire (field req "habitTypeId")) ∧
       r !! "fecha_inicio" = Some (JStr t) ∧
       r !! "fecha_fin" = defaults "habit_logs" (inserted db) !! "fecha_fin" ∧
       r !! "duracion_segundos" =
         defaults "habit_logs" (inserted db) !! "duracion_segundos" ∧
       returned res =
         Done (res_json 201 (JObj [("logId", default JNull (r !! "id"))]))).
Proof.
  intros req. apply (start_session_inserts req); vm_compute; reflexivity.
Defined.

(** ** The life of a [habit_logs] row (C8) *)

Lemma sent_lookup_None (o : object) (c : string) : c ∉ o.*1 → sent o !! c = None.
Proof.
  induction o as [ | [k v] o IH]; intros Hc; [done | ].
  simpl in Hc. apply not_elem_of_cons in Hc as [Hne Hc].
  rewrite sent_cons. rewrite decide_False by done. by apply IH.
Qed.

Lemma patch_row_spec (patch : object) (id : value) (r : row) :
  (r !! "id" ≠ Some id → patch_row patch [FEq "id" id] r = r) ∧
  (∀ c, c ∉ patch.*1 → patch_row patch [FEq "id" id] r !! c = r !! c).
Proof.
  unfold patch_row. split.
  - intros Hid. rewrite decide_False; [done | ]. by rewrite matches_one.
  - intros c Hc. case_decide; [ | done].
    apply lookup_union_r. by apply sent_lookup_None.
Qed.

(** What each operation leaves in the reference store. *)
Lemma memory_final (op : Operation) (req : Request)
    (defaults : string → nat → row) (t : string) (db : DB) :
  let db' := final (run (memory_world defaults t) (handler op req) db) in
  db' = db ∨
  (op = CreateHabit ∧
   ∃ r, db' = mkDB (habit_types db ++ [r])%list (habit_logs db) (S (inserted db))) ∨
  ((op = LogEvent ∨ op = StartSession) ∧
   ∃ r, db' = mkDB (habit_types db) (habit_logs db ++ [r])%list (S (inserted db)) ∧
        r !! "fecha_inicio" = Some (JStr t) ∧
        r !! "fecha_fin" = defaults "habit_logs" (inserted db) !! "fecha_fin" ∧
        r !! "duracion_segundos" =
          defaults "habit_logs" (inserted db) !! "duracion_segundos") ∨
  (op = EndSession ∧
   db' = mkDB (habit_types db)
              (patch_row [("fecha_fin", JStr t);
                          ("duracion_segundos", field req "durationSeconds");
                          ("notas", field req "notas")]
                         [FEq "id" (field req "logId")] <$> habit_logs db)
              (inserted db)).
Proof.
  intros db'. subst db'.
  destruct (run_cases op req (memory_world defaults t) db)
    as [(_ & _ & m0 & ->) | [(_ & _ & ->) | Hv]]; [by left | by left | ].
  destruct op; simpl in Hv.
  - left. by erewrite list_habits_run; [ | done | apply surjective_pairing ].
  - apply andb_prop in Hv as [Hv Ht]. apply andb_prop in Hv as [Hu Hn].
    right; left. split; [done | ].
    erewrite create_habit_run; [ | done | done | done | apply surjective_pairing ].
    cbn. by eexists.
  - apply andb_prop in Hv as [Hu Hh].
    right; right; left. split; [by left | ].
    erewrite log_event_run;
      [ | done | done | apply surjective_pairing | apply surjective_pairing ].
    cbn.
    destruct (new_log_row defaults db _ _ t Hu Hh) as (_ & _ & H3 & Hrest).
    eexists. split; [reflexivity | ]. split_and!; [done | by apply Hrest ..].
  - apply andb_prop in Hv as [Hu Hh].
    right; right; left. split; [by right | ].
    erewrite start_session_run;
      [ | done | done | apply surjective_pairing | apply surjective_pairing ].
    cbn.
    destruct (new_log_row defaults db _ _ t Hu Hh) as (_ & _ & H3 & Hrest).
    eexists. split; [reflexivity | ]. split_and!; [done | by apply Hrest ..].
  - apply andb_prop in Hv as [Hl Hd]. apply negb_true_iff in Hd.
    right; right; right. split; [done | ].
    by erewrite end_session_run;
      [ | done | done | apply surjective_pairing | apply surjective_pairing ].
Qed.

(** C8: (1) no handler ever awaits a delete; a call that writes
    [fecha_fin] or [duracion_segundos] is made by end-session only; an
    insert into [habit_logs] carries exactly [user_id], [habit_type_id]
    and [fecha_inicio] = the clock reading of the run; the single call of
    end-session is an update of [habit_logs] filtered on [id = logId]
    whose patch is [fecha_fin], [duracion_segundos], [notas].  (2) On
    the reference store that update keeps [habit_types], keeps every
    [habit_logs] row in place, leaves the rows whose [id] is not [logId]
    as they were, and changes no column of any row other than those
    three.  (3) On the reference store no operation removes a
    [habit_logs] row or changes its [id].  (4) A row that log-event or
    start-session adds has [fecha_inicio] = the clock reading, and its
    [fecha_fin] and [duracion_segundos] are what the store gives an
    unsupplied column.  (5) A valid end-session request writes the clock
    reading and [durationSeconds], as serialised, into every row whose
    [id] is [logId]. *)
Theorem habit_logs_lifecycle :
  (∀ (op : Operation) (req : Request) W (world : World W) (w : W) (q : StoreCall),
     let res := run world (handler op req) w in
     q ∈ store_calls (trace res) →
     is_delete q = false ∧
     (∀ c, c ∈ written_columns q → c = "fecha_fin" ∨ c = "duracion_segundos" →
           op = EndSession) ∧
     (∀ o ret, q = Insert "habit_logs" o ret →
        ∃ t, EvNow t ∈ trace res ∧
             o = [("user_id", field req "userId");
                  ("habit_type_id", field req "habitTypeId");
                  ("fecha_inicio", JStr t)]) ∧
     (op = EndSession →
        ∃ t, EvNow t ∈ trace res ∧
             store_calls (trace res) = [q] ∧
             q = Update "habit_logs"
                   [("fecha_fin", JStr t);
                    ("duracion_segundos", field req "durationSeconds");
                    ("notas", field req "notas")]
                   [FEq "id" (field req "logId")])) ∧
  (∀ (defaults : string → nat → row) (t : string) (db : DB) (req : Request),
     let db' := final (run (memory_world defaults t) (handler EndSession req) db) in
     habit_types db' = habit_types db ∧
     length (habit_logs db') = length (habit_logs db) ∧
     ∀ i r, habit_logs db !! i = Some r →
       ∃ r', habit_logs db' !! i = Some r' ∧
             (r !! "id" ≠ Some (field req "logId") → r' = r) ∧
             (∀ c, c ≠ "fecha_fin" → c ≠ "duracion_segundos" → c ≠ "notas" →
                   r' !! c = r !! c)) ∧
  (∀ (op : Operation) (defaults : string → nat → row) (t : string) (db : DB)
     (req : Request),
     let db' := final (run (memory_world defaults t) (handler op req) db) in
     ∀ i r, habit_logs db !! i = Some r →
       ∃ r', habit_logs db' !! i = Some r' ∧ r' !! "id" = r !! "id") ∧
  (∀ (op : Operation) (defaults : string → nat → row) (t : string) (db : DB)
     (req : Request),
     op = LogEvent ∨ op = StartSession →
     let db' := final (run (memory_world defaults t) (handler op req) db) in
     db' = db ∨
     ∃ r, habit_logs db' = (habit_logs db ++ [r])%list ∧
          r !! "fecha_inicio" = Some (JStr t) ∧
          r !! "fecha_fin" = defaults "habit_logs" (inserted db) !! "fecha_fin" ∧
          r !! "duracion_segundos" =
            defaults "habit_logs" (inserted db) !! "duracion_segundos") ∧
  (∀ (defaults : string → nat → row) (t : string) (db : DB) (req : Request),
     truthy (field req "logId") = true →
     is_undefined (field req "durationSeconds") = false →
     let db' := final (run (memory_world defaults t) (handler EndSession req) db) in
     ∀ i r, habit_logs db !! i = Some r →
       r !! "id" = Some (field req "logId") →
       ∃ r', habit_logs db' !! i = Some r' ∧
             r' !! "fecha_fin" = Some (JStr t) ∧
             r' !! "duracion_segundos" =
               Some (wire (field req "durationSeconds"))).
Proof.
  split_and!.
  - intros op req W world w q res Hq. subst res.
    destruct (run_cases op req world w)
      as [(_ & _ & m0 & Hrun) | [(_ & _ & Hrun) | Hv]].
    { rewrite Hrun in Hq. simpl in Hq. by apply elem_of_nil in Hq. }
    { rewrite Hrun in Hq. simpl in Hq. by apply elem_of_nil in Hq. }
    destruct (valid_run op req world w Hv)
      as (clock & q0 & a0 & resp & w2 & Hrun & Hclock & _ & _ & _ & Hdel & _ & _
          & _ & _ & Hcols & Hins & Hend).
    rewrite Hrun in *. simpl in *.
    rewrite store_calls_app, Hclock in Hq. simpl in Hq.
    apply list_elem_of_singleton in Hq as ->.
    split_and!; try done.
    + intros o ret Hq. destruct (Hins o ret Hq) as (t & -> & ->).
      exists t. split; [apply list_elem_of_here | done].
    + intros Hop. destruct (Hend Hop) as (t & -> & ->).
      exists t. split_and!; [apply list_elem_of_here | done | done].
  - intros defaults t db req db'. subst db'.
    destruct (memory_final EndSession req defaults t db)
      as [-> | [[? _] | [[[? | ?] _] | [_ ->]]]]; try done.
    + split_and!; try done. intros i r Hr. exists r. done.
    + simpl. split_and!; [done | by rewrite length_fmap | ].
      intros i r Hr. eexists. split.
      * rewrite list_lookup_fmap, Hr. reflexivity.
      * split; [apply patch_row_spec | ].
        intros c H1 H2 H3. apply patch_row_spec. simpl.
        intros Hc. split_fields Hc.
  - intros op defaults t db req db' i r Hr. subst db'.
    destruct (memory_final op req defaults t db)
      as [-> | [[_ [r0 ->]] | [[_ (r0 & -> & _)] | [_ ->]]]]; simpl.
    + by exists r.
    + by exists r.
    + exists r. split; [ | done]. rewrite lookup_app_l; [done | ].
      by apply lookup_lt_Some in Hr.
    + eexists. split; [rewrite list_lookup_fmap, Hr; reflexivity | ].
      apply patch_row_spec. simpl. intros Hc. split_fields Hc.
  - intros op defaults t db req Hop db'. subst db'.
    destruct (memory_final op req defaults t db)
      as [-> | [[-> _] | [[_ (r0 & -> & H1 & H2 & H3)] | [-> _]]]].
    + by left.
    + by destruct Hop.
    + right. by exists r0.
    + by destruct Hop.
  - intros defaults t db req Hl Hd db' i r Hr Hid. subst db'.
    erewrite end_session_run;
      [ | done | done | apply surjective_pairing | apply surjective_pairing ].
    cbn. eexists. split; [rewrite list_lookup_fmap, Hr; reflexivity | ].
    unfold patch_row. rewrite decide_True by (by apply matches_one).
    split; apply lookup_union_Some_l; sent_lookup; [done | by rewrite Hd].
Qed.

Lemma habit_logs_lifecycle_witness :
  let defaults : string → nat → row := λ _ n, {[ "id" := num_of_nat n ]} in
  let t := "2025-01-01T00:10:00.000Z" in
  let r1 : row := {[ "id" := num_of_nat 1; "user_id" := JStr "u1";
                     "fecha_inicio" := JStr "2025-01-01T00:00:00.000Z" ]} in
  let r2 : row := {[ "id" := num_of_nat 2; "user_id" := JStr "u2";
                     "fecha_inicio" := JStr "2025-01-01T00:05:00.000Z" ]} in
  let req := mkRequest ∅ (Some {[ "logId" := num_of_nat 2;
                                  "durationSeconds" := num_of_nat 300 ]}) in
  let db' := final (run (memory_world defaults t) (handler EndSession req)
                        (mkDB [] [r1; r2] 3)) in
  (∃ r', habit_logs db' !! 0 = Some r' ∧ r' = r1) ∧
  (∃ r', habit_logs db' !! 1 = Some r' ∧
         r' !! "fecha_fin" = Some (JStr t) ∧
         r' !! "duracion_segundos" = Some (num_of_nat 300)).
Proof.
  intros defaults t r1 r2 req db'. split.
  - destruct (proj1 (proj2 habit_logs_lifecycle) defaults t (mkDB [] [r1; r2] 3) req)
      as (_ & _ & H).
    destruct (H 0 r1 eq_refl) as (r' & Hr' & Hsame & _).
    exists r'. split; [exact Hr' | ]. apply Hsame. vm_compute. discriminate.
  - destruct (proj2 (proj2 (proj2 (proj2 habit_logs_lifecycle)))
                defaults t (mkDB [] [r1; r2] 3) req eq_refl eq_refl 1 r2 eq_refl)
      as (r' & Hr' & Hfin & Hdur).
    + vm_compute. reflexivity.
    + exists r'. split_and!; [exact Hr' | exact Hfin | ].
      rewrite Hdur. vm_compute. reflexivity.
Defined.

(** * Routing *)

#[local] Arguments match_path : simpl never.

Section RoutingFacts.

Variable decode : string → option string.

(** What the list route binds: the decoding of a non-empty segment. *)
Lemma match_user_route (path : string) (ps : gmap string string) :
  match_path decode "/habits/:userId" path = Matched ps →
  ∃ s u, s ≠ "" ∧ decode s = Some u ∧ ps !! "userId" = Some u.
Proof.
  unfold match_path.
  change (segments "/habits/:userId") with (Some ["habits"; ":userId"]).
  destruct (segments path) as [segs | ]; [ | done].
  change (parse_segment <$> ["habits"; ":userId"])
    with [Lit "habits"; Param "userId"].
  destruct segs as [ | s1 [ | s2 [ | s3 rest]]];
    cbn [match_segments]; try done;
    destruct (String.eqb (lower_string "habits") (lower_string s1)); try done;
    destruct (String.eqb s2 "") eqn:Hs2; try done.
  destruct (decode s2) as [u | ] eqn:Hu; [ | done].
  intros [= <-]. exists s2, u. split_and!; [ | done | apply lookup_insert_eq].
  intros ->. done.
Qed.

(** A pattern without parameters never fails to decode. *)
Lemma literal_routes_decode (path : string) :
  match_path decode "/" path ≠ BadParam ∧
  match_path decode "/habits" path ≠ BadParam ∧
  match_path decode "/logs/event" path ≠ BadParam ∧
  match_path decode "/logs/session/start" path ≠ BadParam ∧
  match_path decode "/logs/session/end" path ≠ BadParam.
Proof.
  unfold match_path.
  change (segments "/") with (Some (@nil string)).
  change (segments "/habits") with (Some ["habits"]).
  change (segments "/logs/event") with (Some ["logs"; "event"]).
  change (segments "/logs/session/start") with (Some ["logs"; "session"; "start"]).
  change (segments "/logs/session/end") with (Some ["logs"; "session"; "end"]).
  destruct (segments path) as [segs | ]; [ | done].
  change (parse_segment <$> []) with (@nil Segment).
  change (parse_segment <$> ["habits"]) with [Lit "habits"].
  change (parse_segment <$> ["logs"; "event"]) with [Lit "logs"; Lit "event"].
  change (parse_segment <$> ["logs"; "session"; "start"])
    with [Lit "logs"; Lit "session"; Lit "start"].
  change (parse_segment <$> ["logs"; "session"; "end"])
    with [Lit "logs"; Lit "session"; Lit "end"].
  destruct segs as [ | s1 [ | s2 [ | s3 [ | s4 rest]]]]; cbn [match_segments];
    split_and!; try done;
    repeat (match goal with
            | |- context [String.eqb ?a ?b] => destruct (String.eqb a b)
            end; try done).
Qed.

(** A path the pattern [/habits] matches is matched by no other pattern
    of the listings. *)
Lemma habits_route_exclusive (path : string) (ps : gmap string string) :
  match_path decode "/habits" path = Matched ps →
  match_path decode "/" path = NoMatch ∧
  match_path decode "/habits/:userId" path = NoMatch ∧
  match_path decode "/logs/event" path = NoMatch ∧
  match_path decode "/logs/session/start" path = NoMatch ∧
  match_path decode "/logs/session/end" path = NoMatch.
Proof.
  unfold match_path.
  change (segments "/") with (Some (@nil string)).
  change (segments "/habits") with (Some ["habits"]).
  change (segments "/habits/:userId") with (Some ["habits"; ":userId"]).
  change (segments "/logs/event") with (Some ["logs"; "event"]).
  change (segments "/logs/session/start") with (Some ["logs"; "session"; "start"]).
  change (segments "/logs/session/end") with (Some ["logs"; "session"; "end"]).
  destruct (segments path) as [segs | ]; [ | done].
  change (parse_segment <$> []) with (@nil Segment).
  change (parse_segment <$> ["habits"]) with [Lit "habits"].
  change (parse_segment <$> ["habits"; ":userId"])
    with [Lit "habits"; Param "userId"].
  change (parse_segment <$> ["logs"; "event"]) with [Lit "logs"; Lit "event"].
  change (parse_segment <$> ["logs"; "session"; "start"])
    with [Lit "logs"; Lit "session"; Lit "start"].
  change (parse_segment <$> ["logs"; "session"; "end"])
    with [Lit "logs"; Lit "session"; Lit "end"].
  destruct segs as [ | s1 [ | s2 rest]]; cbn [match_segments]; try done.
  - intros _. split_and!; try done;
      repeat (match goal with
              | |- context [String.eqb ?a ?b] => destruct (String.eqb a b)
              end; try done).
  - by destruct (String.eqb (lower_string "habits") (lower_string s1)).
Qed.

Lemma get_habits_slash (json : option (gmap string value)) :
  dispatch decode app_index (mkHttp GET "/habits/" json) = NotFound ∧
  dispatch decode app_full (mkHttp GET "/habits/" json) = NotFound.
Proof. split; reflexivity. Qed.

End RoutingFacts.

(** ** GET /habits/ (C4) *)

(** C4, the failing input: a GET of [/habits/] is taken by no route of
    either listing, whatever the decoder, so the framework answers 404
    and not the 400 of the specification.  The list handler does hold
    the guard that gives that answer, with body exactly
    [{ error: "Falta el parámetro userId en la URL." }] and no store
    call, for an absent or empty [userId]; but every path the route
    [/habits/:userId] takes binds the decoding of a non-empty segment, so
    the router never runs the handler on a missing [userId]. *)
Theorem list_habits_missing_userId :
  (∀ (decode : string → option string) (json : option (gmap string value)),
     dispatch decode app_index (mkHttp GET "/habits/" json) = NotFound ∧
     dispatch decode app_full (mkHttp GET "/habits/" json) = NotFound) ∧
  (∀ (req : Request) W (world : World W) (w : W),
     params req !! "userId" = None ∨ params req !! "userId" = Some "" →
     run world (handler ListHabits req) w =
       mkRun [] (Done (res_json 400
                         (error_obj "Falta el parámetro userId en la URL."))) w) ∧
  (∀ (decode : string → option string) (path : string) (ps : gmap string string),
     match_path decode "/habits/:userId" path = Matched ps →
     ∃ s u, s ≠ "" ∧ decode s = Some u ∧ ps !! "userId" = Some u).
Proof.
  split_and!.
  - intros decode json. apply get_habits_slash.
  - intros req W world w Hu.
    rewrite (falsy_rejects ListHabits req "userId");
      [done | done | apply list_elem_of_here | done | ].
    simpl. unfold param. by destruct Hu as [-> | ->].
  - apply match_user_route.
Qed.

Lemma list_habits_missing_userId_witness :
  run (scripted "2025-01-01T00:00:00.000Z" (store_ok (JArr [])))
      (handler ListHabits (mkRequest {[ "userId" := "" ]} None)) [] =
    mkRun [] (Done (res_json 400
                      (error_obj "Falta el parámetro userId en la URL."))) [] ∧
  ∃ s u, s ≠ "" ∧ Some s = Some u ∧
         ({[ "userId" := "u1" ]} : gmap string string) !! "userId" = Some u.
Proof.
  split.
  - apply (proj1 (proj2 list_habits_missing_userId)
             (mkRequest {[ "userId" := "" ]} None)).
    right. vm_compute. reflexivity.
  - apply (proj2 (proj2 list_habits_missing_userId) Some "/habits/u1").
    vm_compute. reflexivity.
Defined.

(** ** Requests that lack a required field (C2) *)

(** C2, the failing inputs.  (1) A request without a parsed body lacks
    every required field, but the destructuring of [req.body] at the top
    of the create, log-event, start-session and end-session handlers
    stands before the validation and outside the [try] block: the handler
    throws, writes no 400 and makes no store call.  (2) A list request
    that lacks its [userId] is a GET of [/habits/], which no route takes;
    the framework answers 404.  When the destructured object exists the
    handlers do answer as the specification says
    ([missing_field_rejected]). *)
Theorem missing_field_defects :
  (∀ (op : Operation) (req : Request) W (world : World W) (w : W),
     op ≠ ListHabits → body req = None →
     (∀ f, f ∈ required_fields op → missing op req f) ∧
     ∃ m, run world (handler op req) w = mkRun [] (Thrown m) w) ∧
  (∀ (decode : string → option string) (json : option (gmap string value)),
     dispatch decode app_index (mkHttp GET "/habits/" json) = NotFound ∧
     dispatch decode app_full (mkHttp GET "/habits/" json) = NotFound).
Proof.
  split.
  - intros op req W world w Hop Hb. split.
    + intros f _. unfold missing. destruct op; try done; by rewrite Hb.
    + destruct (no_body_throws op req Hop Hb) as [m Hm].
      exists m. by rewrite Hm.
  - intros decode json. apply get_habits_slash.
Qed.

Lemma missing_field_defects_witness :
  ∃ m, run (scripted "2025-01-01T00:00:00.000Z" (store_ok JNull))
           (handler LogEvent (mkRequest ∅ None)) [] = mkRun [] (Thrown m) [].
Proof.
  apply (proj1 missing_field_defects LogEvent (mkRequest ∅ None) _
           (scripted "2025-01-01T00:00:00.000Z" (store_ok JNull)) []);
    [discriminate | reflexivity].
Defined.

(** * Further properties of the handlers *)

(** X1: whatever the environment answers, a handler awaits at most one
    store call and reads the clock at most once.  It throws only at the
    destructuring of an absent body, before any event, and then writes
    no response; otherwise it writes one response, with status 200, 201,
    400 or 500.  That response is 400 exactly when no store call was
    made, which is exactly when validation failed; and a status below 300
    means that a store call was made and answered without error. *)
Theorem handler_effects_bounded (op : Operation) (req : Request)
    {W} (world : World W) (w : W) :
  let res := run world (handler op req) w in
  (length (store_calls (trace res)) ≤ 1)%nat ∧
  (length (clock_reads (trace res)) ≤ 1)%nat ∧
  (∀ m, returned res = Thrown m →
        op ≠ ListHabits ∧ body req = None ∧ trace res = []) ∧
  (destructurable op req → ∃ resp, returned res = Done resp) ∧
  (∀ resp, returned res = Done resp →
     status resp ∈ [200; 201; 400; 500] ∧
     (status resp = 400 ↔ store_calls (trace res) = []) ∧
     (status resp = 400 ↔ passes_validation op req = false) ∧
     ((status resp < 300)%nat →
      ∃ q a, EvCall q a ∈ trace res ∧ error a = None)).
Proof.
  intros res. subst res.
  destruct (run_cases op req world w)
    as [(Hop & Hb & m0 & ->) | [(Hd & Hv & ->) | Hv]]; simpl.
  - split_and!; try lia; try done.
    intros Hd. destruct op; try done; simpl in Hd; rewrite Hb in Hd;
      by destruct Hd.
  - split_and!; try lia; try done; [by eexists | ].
    intros resp [= <-]. simpl. split_and!; try done; try lia.
    set_solver.
  - destruct (valid_run op req world w Hv)
      as (clock & q & a & resp & w2 & -> & Hclock & Hreads & Hlen & _ & _ & H500
          & Hok & _).
    simpl. rewrite store_calls_app, Hclock, Hreads. simpl.
    assert (Hst : (status resp = 200 ∨ status resp = 201 ∨ status resp = 500)
                  ∧ ((status resp < 300)%nat → error a = None)).
    { destruct (error a) as [m | ] eqn:Ha.
      - rewrite (H500 m eq_refl). simpl. split; [auto | lia].
      - split; [ | done]. destruct (Hok eq_refl) as [Hs | [_ Hs]]; rewrite Hs.
        + destruct op; auto.
        + auto. }
    destruct Hst as [Hst Hlt].
    split_and!; try done; [by eexists | ].
    intros resp' [= <-]. split_and!.
    + destruct Hst as [-> | [-> | ->]]; set_solver.
    + split; [ | done]. intros H4. destruct Hst as [? | [? | ?]]; lia.
    + split; [ | by rewrite Hv]. intros H4. destruct Hst as [? | [? | ?]]; lia.
    + intros Hs. exists q, a. split; [ | by apply Hlt].
      apply elem_of_app. right. apply list_elem_of_here.
Qed.

Lemma handler_effects_bounded_witness :
  ∃ resp,
    returned (run (scripted "2025-01-01T00:00:00.000Z" (store_ok JNull))
                  (handler LogEvent (mkRequest ∅ (Some ∅))) []) = Done resp.
Proof.
  apply (proj1 (proj2 (proj2 (proj2
           (handler_effects_bounded LogEvent (mkRequest ∅ (Some ∅))
              (scripted "2025-01-01T00:00:00.000Z" (store_ok JNull)) []))))).
  by eexists.
Defined.

(** X2: every store call of a run goes to the table of its operation
    and has its kind: the list operation only selects from
    [habit_types], create only inserts into [habit_types], log-event and
    start-session only insert into [habit_logs], end-session only
    updates [habit_logs].  On the reference store, accordingly, only
    create changes [habit_types], list and create leave [habit_logs]
    alone, and list changes nothing. *)
Theorem operations_touch_own_table :
  (∀ (op : Operation) (req : Request) W (world : World W) (w : W) (q : StoreCall),
     q ∈ store_calls (trace (run world (handler op req) w)) →
     call_table q = (match op with
                     | ListHabits | CreateHabit => "habit_types"
                     | _ => "habit_logs"
                     end) ∧
     (match op with
      | ListHabits => is_select q
      | EndSession => is_update q
      | _ => is_insert q
      end) = true) ∧
  (∀ (op : Operation) (defaults : string → nat → row) (t : string) (db : DB)
     (req : Request),
     let db' := final (run (memory_world defaults t) (handler op req) db) in
     (op ≠ CreateHabit → habit_types db' = habit_types db) ∧
     (op = ListHabits ∨ op = CreateHabit → habit_logs db' = habit_logs db) ∧
     (op = ListHabits → db' = db)).
Proof.
  split.
  - intros op req W world w q Hq.
    destruct (run_cases op req world w)
      as [(_ & _ & m0 & Hrun) | [(_ & _ & Hrun) | Hv]].
    + rewrite Hrun in Hq. simpl in Hq. by apply elem_of_nil in Hq.
    + rewrite Hrun in Hq. simpl in Hq. by apply elem_of_nil in Hq.
    + destruct (valid_run op req world w Hv)
        as (clock & q0 & a & resp & w2 & Hrun & Hclock & _ & _ & _ & _ & _ & _
            & Htable & Hkind & _).
      rewrite Hrun in Hq. simpl in Hq.
      rewrite store_calls_app, Hclock in Hq. simpl in Hq.
      apply list_elem_of_singleton in Hq as ->. done.
  - intros op defaults t db req db'. subst db'.
    destruct (memory_final op req defaults t db)
      as [-> | [[-> [r ->]] | [[Hop (r & -> & _)] | [-> ->]]]]; simpl.
    + done.
    + split_and!; try done; by intros [? | ?].
    + destruct Hop as [-> | ->]; split_and!; try done; by intros [? | ?].
    + split_and!; try done; by intros [? | ?].
Qed.

Lemma operations_touch_own_table_witness :
  let req := mkRequest ∅ (Some {[ "userId" := JStr "u1";
                                  "habitTypeId" := JStr "h1" ]}) in
  let q := Insert "habit_logs"
             [("user_id", JStr "u1"); ("habit_type_id", JStr "h1");
              ("fecha_inicio", JStr "2025-01-01T00:00:00.000Z")] None in
  call_table q = "habit_logs" ∧ is_insert q = true.
Proof.
  intros req q.
  apply (proj1 operations_touch_own_table LogEvent req _
           (scripted "2025-01-01T00:00:00.000Z" (store_ok JNull)) [] q).
  vm_compute. apply list_elem_of_here.
Defined.

(** ** Logging an event and creating a habit type *)

(** X3: with truthy [userId] and [habitTypeId] the log-event handler
    reads the clock and awaits exactly one insert into [habit_logs] of
    [user_id], [habit_type_id] and [fecha_inicio] = the clock reading,
    without asking for the row back; when the store reports no error it
    answers 201 [{ message: 'Evento registrado' }] whatever data came
    back.  On the reference store one row with those values, as
    serialised, is appended to [habit_logs] and [habit_types] is
    untouched. *)
Theorem log_event_inserts (req : Request) :
  truthy (field req "userId") = true →
  truthy (field req "habitTypeId") = true →
  (∀ W (world : World W) (w w1 w2 : W) (t : string) (a : StoreResult),
     tick world w = (t, w1) →
     let q := Insert "habit_logs"
                [("user_id", field req "userId");
                 ("habit_type_id", field req "habitTypeId");
                 ("fecha_inicio", JStr t)] None in
     exec world q w1 = (a, w2) →
     let res := run world (handler LogEvent req) w in
     trace res = [EvNow t; EvCall q a] ∧
     final res = w2 ∧
     (error a = None →
      returned res = Done (res_json 201 (message_obj "Evento registrado")))) ∧
  (∀ (defaults : string → nat → row) (t : string) (db : DB),
     let res := run (memory_world defaults t) (handler LogEvent req) db in
     returned res = Done (res_json 201 (message_obj "Evento registrado")) ∧
     ∃ r : row,
       final res = mkDB (habit_types db) (habit_logs db ++ [r])%list
                        (S (inserted db)) ∧
       r !! "user_id" = Some (wire (field req "userId")) ∧
       r !! "habit_type_id" = Some (wire (field req "habitTypeId")) ∧
       r !! "fecha_inicio" = Some (JStr t)).
Proof.
  intros Hu Hh. split.
  - intros W world w w1 w2 t a Htick q Hexec res. subst res q.
    rewrite (log_event_run req world w w1 w2 t a Hu Hh Htick Hexec). simpl.
    split_and!; try done. by intros ->.
  - intros defaults t db res. subst res.
    erewrite log_event_run;
      [ | done | done | apply surjective_pairing | apply surjective_pairing ].
    cbn. split; [done | ].
    destruct (new_log_row defaults db _ _ t Hu Hh) as (H1 & H2 & H3 & _).
    eexists. split; [reflexivity | ]. done.
Qed.

Lemma log_event_inserts_witness :
  let req := mkRequest ∅ (Some {[ "userId" := JStr "u1";
                                  "habitTypeId" := JStr "h1" ]}) in
  (∀ W (world : World W) (w w1 w2 : W) (t : string) (a : StoreResult),
     tick world w = (t, w1) →
     let q := Insert "habit_logs"
                [("user_id", field req "userId");
                 ("habit_type_id", field req "habitTypeId");
                 ("fecha_inicio", JStr t)] None in
     exec world q w1 = (a, w2) →
     let res := run world (handler LogEvent req) w in
     trace res = [EvNow t; EvCall q a] ∧
     final res = w2 ∧
     (error a = None →
      returned res = Done (res_json 201 (message_obj "Evento registrado")))) ∧
  (∀ (defaults : string → nat → row) (t : string) (db : DB),
     let res := run (memory_world defaults t) (handler LogEvent req) db in
     returned res = Done (res_json 201 (message_obj "Evento registrado")) ∧
     ∃ r : row,
       final res = mkDB (habit_types db) (habit_logs db ++ [r])%list
                        (S (inserted db)) ∧
       r !! "user_id" = Some (wire (field req "userId")) ∧
       r !! "habit_type_id" = Some (wire (field req "habitTypeId")) ∧
       r !! "fecha_inicio" = Some (JStr t)).
Proof.
  intros req. apply (log_event_inserts req); vm_compute; reflexivity.
Defined.

(** X4: with truthy [userId], [nombre] and [tipoRegistro] the create
    handler awaits exactly one insert into [habit_types] of [user_id],
    [nombre], [tipo_registro] and [meta_diaria], without reading the
    clock, and answers 201 [{ message: 'Hábito creado correctamente' }]
    when the store reports no error.  On the reference store one row is
    appended to [habit_types] with the three required values as
    serialised; its [meta_diaria] is the submitted [metaDiaria], or the
    store's default when none was submitted, and every other column
    ([id], [created_at], [is_active]) is the store's default;
    [habit_logs] is untouched. *)
Theorem create_habit_inserts (req : Request) :
  truthy (field req "userId") = true →
  truthy (field req "nombre") = true →
  truthy (field req "tipoRegistro") = true →
  (∀ W (world : World W) (w w1 : W) (a : StoreResult),
     let q := Insert "habit_types"
                [("user_id", field req "userId");
                 ("nombre", field req "nombre");
                 ("tipo_registro", field req "tipoRegistro");
                 ("meta_diaria", field req "metaDiaria")] None in
     exec world q w = (a, w1) →
     let res := run world (handler CreateHabit req) w in
     trace res = [EvCall q a] ∧
     final res = w1 ∧
     (error a = None →
      returned res =
        Done (res_json 201 (message_obj "Hábito creado correctamente")))) ∧
  (∀ (defaults : string → nat → row) (t : string) (db : DB),
     let res := run (memory_world defaults t) (handler CreateHabit req) db in
     let d := defaults "habit_types" (inserted db) in
     returned res =
       Done (res_json 201 (message_obj "Hábito creado correctamente")) ∧
     ∃ r : row,
       final res = mkDB (habit_types db ++ [r])%list (habit_logs db)
                        (S (inserted db)) ∧
       r !! "user_id" = Some (wire (field req "userId")) ∧
       r !! "nombre" = Some (wire (field req "nombre")) ∧
       r !! "tipo_registro" = Some (wire (field req "tipoRegistro")) ∧
       r !! "meta_diaria" =
         (if is_undefined (field req "metaDiaria") then d !! "meta_diaria"
          else Some (wire (field req "metaDiaria"))) ∧
       r !! "id" = d !! "id" ∧
       r !! "created_at" = d !! "created_at" ∧
       r !! "is_active" = d !! "is_active").
Proof.
  intros Hu Hn Hk. split.
  - intros W world w w1 a q Hexec res. subst res q.
    rewrite (create_habit_run req world w w1 a Hu Hn Hk Hexec). simpl.
    split_and!; try done. by intros ->.
  - intros defaults t db res d. subst res d.
    erewrite create_habit_run; [ | done | done | done | apply surjective_pairing ].
    cbn. split; [done | ].
    destruct (new_habit_row defaults db _ _ _ (field req "metaDiaria") Hu Hn Hk)
      as (H1 & H2 & H3 & H4 & Hrest).
    eexists. split; [reflexivity | ].
    split_and!; try done; by apply Hrest.
Qed.

Lemma create_habit_inserts_witness :
  let req := mkRequest ∅ (Some {[ "userId" := JStr "u1"; "nombre" := JStr "Leer";
                                  "tipoRegistro" := JStr "counter" ]}) in
  let defaults : string → nat → row :=
    λ _ n, {[ "id" := num_of_nat n; "meta_diaria" := JNull ]} in
  let res := run (memory_world defaults "2025-01-01T00:00:00.000Z")
                 (handler CreateHabit req) (mkDB [] [] 7) in
  returned res =
    Done (res_json 201 (message_obj "Hábito creado correctamente")) ∧
  ∃ r : row,
    final res = mkDB [r] [] 8 ∧
    r !! "user_id" = Some (wire (field req "userId")) ∧
    r !! "nombre" = Some (wire (field req "nombre")) ∧
    r !! "tipo_registro" = Some (wire (field req "tipoRegistro")) ∧
    r !! "meta_diaria" =
      (if is_undefined (field req "metaDiaria")
       then defaults "habit_types" 7 !! "meta_diaria"
       else Some (wire (field req "metaDiaria"))) ∧
    r !! "id" = defaults "habit_types" 7 !! "id" ∧
    r !! "created_at" = defaults "habit_types" 7 !! "created_at" ∧
    r !! "is_active" = defaults "habit_types" 7 !! "is_active".
Proof.
  intros req defaults res.
  apply (proj2 (create_habit_inserts req eq_refl eq_refl eq_refl)
           defaults "2025-01-01T00:00:00.000Z" (mkDB [] [] 7)).
Defined.

(** ** Sessions on the reference store *)

(** X5: when the store answers the start-session insert with neither an
    error nor a row ([data] is [null] or [undefined]), reading [data.id]
    throws inside the [try] block and the answer is 500 with the
    start-session prefix, not 201; when [data] is an object without [id],
    the answer is 201 with [logId] undefined. *)
Theorem start_session_without_row (req : Request) {W} (world : World W)
    (w w1 w2 : W) (t : string) (a : StoreResult) :
  truthy (field req "userId") = true →
  truthy (field req "habitTypeId") = true →
  tick world w = (t, w1) →
  exec world (Insert "habit_logs"
                [("user_id", field req "userId");
                 ("habit_type_id", field req "habitTypeId");
                 ("fecha_inicio", JStr t)] (Some "id")) w1 = (a, w2) →
  error a = None →
  let res := run world (handler StartSession req) w in
  (data a = JNull ∨ data a = JUndefined →
   ∃ resp, returned res = Done resp ∧
     status resp = 500 ∧
     ∃ m, payload resp = Json (error_obj ("Error al iniciar sesión: " +:+ m))) ∧
  (∀ o, data a = JObj o → lookup_field "id" o = JUndefined →
        returned res = Done (res_json 201 (JObj [("logId", JUndefined)]))).
Proof.
  intros Hu Hh Htick Hexec Ha res. subst res.
  rewrite (start_session_run req world w w1 w2 t a Hu Hh Htick Hexec). simpl.
  rewrite Ha. split.
  - intros [-> | ->]; simpl; (eexists; split; [reflexivity | ]);
      (split; [done | by eexists]).
  - intros o -> Hid. simpl. by rewrite Hid.
Qed.

Lemma start_session_without_row_witness :
  let req := mkRequest ∅ (Some {[ "userId" := JStr "u1";
                                  "habitTypeId" := JStr "h1" ]}) in
  let res := run (scripted "2025-01-01T00:00:00.000Z" (store_ok JNull))
                 (handler StartSession req) [] in
  (JNull = JNull ∨ JNull = JUndefined →
   ∃ resp, returned res = Done resp ∧
     status resp = 500 ∧
     ∃ m, payload resp = Json (error_obj ("Error al iniciar sesión: " +:+ m))) ∧
  (∀ o, JNull = JObj o → lookup_field "id" o = JUndefined →
        returned res = Done (res_json 201 (JObj [("logId", JUndefined)]))).
Proof.
  intros req res.
  apply (start_session_without_row req
           (scripted "2025-01-01T00:00:00.000Z" (store_ok JNull)) [] []
           [Insert "habit_logs"
              [("user_id", JStr "u1"); ("habit_type_id", JStr "h1");
               ("fecha_inicio", JStr "2025-01-01T00:00:00.000Z")] (Some "id")]
           "2025-01-01T00:00:00.000Z" (store_ok JNull));
    vm_compute; reflexivity.
Defined.

Lemma end_session_memory (defaults : string → nat → row) (t : string) (db : DB)
    (req : Request) :
  truthy (field req "logId") = true →
  is_undefined (field req "durationSeconds") = false →
  let res := run (memory_world defaults t) (handler EndSession req) db in
  returned res =
    Done (res_json 200 (message_obj "Sesión finalizada correctamente")) ∧
  final res =
    mkDB (habit_types db)
         (patch_row [("fecha_fin", JStr t);
                     ("duracion_segundos", field req "durationSeconds");
                     ("notas", field req "notas")]
                    [FEq "id" (field req "logId")] <$> habit_logs db)
         (inserted db).
Proof.
  intros Hl Hd res. subst res.
  by erewrite end_session_run;
    [ | done | done | apply surjective_pairing | apply surjective_pairing ].
Qed.

(** The row an end-session update leaves where its filter matches. *)
Lemma closed_row (t : string) (d n id : value) (r : row) :
  is_undefined d = false →
  r !! "id" = Some id →
  let r' := patch_row [("fecha_fin", JStr t); ("duracion_segundos", d); ("notas", n)]
                      [FEq "id" id] r in
  r' !! "fecha_fin" = Some (JStr t) ∧
  r' !! "duracion_segundos" = Some (wire d) ∧
  r' !! "notas" = (if is_undefined n then r !! "notas" else Some (wire n)) ∧
  ∀ c, c ≠ "fecha_fin" → c ≠ "duracion_segundos" → c ≠ "notas" →
       r' !! c = r !! c.
Proof.
  intros Hd Hid r'. subst r'. unfold patch_row.
  rewrite decide_True by (by apply matches_one).
  split_and!.
  - apply lookup_union_Some_l. by sent_lookup.
  - apply lookup_union_Some_l. sent_lookup. by rewrite Hd.
  - destruct (is_undefined n) eqn:Hn.
    + apply lookup_union_r. sent_lookup. by rewrite Hn.
    + apply lookup_union_Some_l. sent_lookup. by rewrite Hn.
  - intros c H1 H2 H3. apply lookup_union_r.
    rewrite !sent_cons, sent_nil. by repeat case_decide.
Qed.

Lemma patch_rows_other (patch : object) (id : value) (rows : list row) :
  (∀ r, r ∈ rows → r !! "id" ≠ Some id) →
  patch_row patch [FEq "id" id] <$> rows = rows.
Proof.
  induction rows as [ | r rows IH]; intros Hids; [done | ].
  rewrite fmap_cons. f_equal.
  - apply patch_row_spec. apply Hids. apply list_elem_of_here.
  - apply IH. intros r' Hr'. apply Hids. by apply list_elem_of_further.
Qed.

(** X6: a session started and then ended with the [logId] that the
    start returned.  On a reference store that gives the new row a truthy
    [id] no other [habit_logs] row has, the start answers 201 with that
    [id]; the end then answers 200, leaves every earlier row as it was,
    and the new row keeps its [user_id], [habit_type_id] and
    [fecha_inicio] and gains [fecha_fin] = the clock reading of the end
    and [duracion_segundos] = [durationSeconds] as serialised. *)
Theorem session_round_trip (defaults : string → nat → row) (t1 t2 : string)
    (db : DB) (req1 req2 : Request) (id : value) :
  truthy (field req1 "userId") = true →
  truthy (field req1 "habitTypeId") = true →
  defaults "habit_logs" (inserted db) !! "id" = Some id →
  truthy id = true →
  (∀ r, r ∈ habit_logs db → r !! "id" ≠ Some id) →
  field req2 "logId" = id →
  is_undefined (field req2 "durationSeconds") = false →
  let started := run (memory_world defaults t1) (handler StartSession req1) db in
  let ended := run (memory_world defaults t2) (handler EndSession req2)
                   (final started) in
  returned started = Done (res_json 201 (JObj [("logId", id)])) ∧
  returned ended =
    Done (res_json 200 (message_obj "Sesión finalizada correctamente")) ∧
  habit_types (final ended) = habit_types db ∧
  ∃ r : row,
    habit_logs (final ended) = (habit_logs db ++ [r])%list ∧
    r !! "id" = Some id ∧
    r !! "user_id" = Some (wire (field req1 "userId")) ∧
    r !! "habit_type_id" = Some (wire (field req1 "habitTypeId")) ∧
    r !! "fecha_inicio" = Some (JStr t1) ∧
    r !! "fecha_fin" = Some (JStr t2) ∧
    r !! "duracion_segundos" = Some (wire (field req2 "durationSeconds")).
Proof.
  intros Hu Hh Hid Htid Hfresh Hlog Hd started ended.
  assert (Hstarted :
    started = mkRun (trace started) (Done (res_json 201 (JObj [("logId", id)])))
                (mkDB (habit_types db)
                   (habit_logs db ++
                    [new_row defaults "habit_logs"
                       [("user_id", field req1 "userId");
                        ("habit_type_id", field req1 "habitTypeId");
                        ("fecha_inicio", JStr t1)] db])%list
                   (S (inserted db)))).
  { subst started.
    erewrite start_session_run;
      [ | done | done | apply surjective_pairing | apply surjective_pairing ].
    cbn. do 5 f_equal.
    destruct (new_log_row defaults db _ _ t1 Hu Hh) as (_ & _ & _ & Hrest).
    rewrite Hrest by done. by rewrite Hid. }
  set (r0 := new_row defaults "habit_logs" _ db) in Hstarted.
  destruct (new_log_row defaults db _ _ t1 Hu Hh) as (H1 & H2 & H3 & Hrest).
  fold r0 in H1, H2, H3, Hrest.
  assert (Hr0 : r0 !! "id" = Some id) by (rewrite Hrest by done; exact Hid).
  assert (Hl : truthy (field req2 "logId") = true) by (by rewrite Hlog).
  destruct (end_session_memory defaults t2 (final started) req2 Hl Hd)
    as [Hresp Hfinal].
  fold ended in Hresp, Hfinal.
  split; [by rewrite Hstarted | ]. split; [exact Hresp | ].
  rewrite Hfinal, Hstarted. simpl. split; [done | ].
  rewrite fmap_app, Hlog, patch_rows_other by done. simpl.
  destruct (closed_row t2 (field req2 "durationSeconds") (field req2 "notas")
              id r0 Hd Hr0) as (Hf & Hdur & _ & Hsame).
  eexists. split; [reflexivity | ].
  split_and!; try done; by rewrite Hsame.
Qed.

Lemma session_round_trip_witness :
  let defaults : string → nat → row := λ _ n, {[ "id" := num_of_nat n ]} in
  let req1 := mkRequest ∅ (Some {[ "userId" := JStr "u1";
                                   "habitTypeId" := JStr "h1" ]}) in
  let req2 := mkRequest ∅ (Some {[ "logId" := num_of_nat 42;
                                   "durationSeconds" := num_of_nat 0 ]}) in
  let started := run (memory_world defaults "2025-01-01T00:00:00.000Z")
                     (handler StartSession req1) (mkDB [] [] 42) in
  let ended := run (memory_world defaults "2025-01-01T00:02:00.000Z")
                   (handler EndSession req2) (final started) in
  returned started = Done (res_json 201 (JObj [("logId", num_of_nat 42)])) ∧
  returned ended =
    Done (res_json 200 (message_obj "Sesión finalizada correctamente")) ∧
  habit_types (final ended) = [] ∧
  ∃ r : row,
    habit_logs (final ended) = [r] ∧
    r !! "id" = Some (num_of_nat 42) ∧
    r !! "user_id" = Some (wire (field req1 "userId")) ∧
    r !! "habit_type_id" = Some (wire (field req1 "habitTypeId")) ∧
    r !! "fecha_inicio" = Some (JStr "2025-01-01T00:00:00.000Z") ∧
    r !! "fecha_fin" = Some (JStr "2025-01-01T00:02:00.000Z") ∧
    r !! "duracion_segundos" = Some (wire (field req2 "durationSeconds")).
Proof.
  intros defaults req1 req2.
  apply (session_round_trip defaults _ _ (mkDB [] [] 42) req1 req2 (num_of_nat 42));
    try (vm_compute; reflexivity).
  intros r Hr. by apply elem_of_nil in Hr.
Defined.

(** X7: ending a session twice.  The handler does not look at the row
    before it updates it, so on the reference store a second valid
    end-session request for the same [logId] answers 200 again and
    replaces [fecha_fin] and [duracion_segundos] of every row with that
    [id] by its own clock reading and [durationSeconds] as serialised. *)
Theorem end_session_overwrites (defaults : string → nat → row) (t1 t2 : string)
    (db : DB) (req1 req2 : Request) :
  truthy (field req1 "logId") = true →
  is_undefined (field req1 "durationSeconds") = false →
  field req2 "logId" = field req1 "logId" →
  is_undefined (field req2 "durationSeconds") = false →
  let first := run (memory_world defaults t1) (handler EndSession req1) db in
  let second := run (memory_world defaults t2) (handler EndSession req2)
                    (final first) in
  returned second =
    Done (res_json 200 (message_obj "Sesión finalizada correctamente")) ∧
  ∀ i r, habit_logs db !! i = Some r →
    r !! "id" = Some (field req1 "logId") →
    ∃ r1 r2,
      habit_logs (final first) !! i = Some r1 ∧
      r1 !! "fecha_fin" = Some (JStr t1) ∧
      r1 !! "duracion_segundos" = Some (wire (field req1 "durationSeconds")) ∧
      habit_logs (final second) !! i = Some r2 ∧
      r2 !! "fecha_fin" = Some (JStr t2) ∧
      r2 !! "duracion_segundos" = Some (wire (field req2 "durationSeconds")).
Proof.
  intros Hl1 Hd1 Hlog Hd2 first second.
  assert (Hl2 : truthy (field req2 "logId") = true) by (by rewrite Hlog).
  destruct (end_session_memory defaults t1 db req1 Hl1 Hd1) as [_ Hf1].
  fold first in Hf1.
  destruct (end_session_memory defaults t2 (final first) req2 Hl2 Hd2)
    as [Hresp Hf2].
  fold second in Hresp, Hf2.
  split; [exact Hresp | ].
  intros i r Hr Hid.
  destruct (closed_row t1 (field req1 "durationSeconds") (field req1 "notas")
              _ r Hd1 Hid) as (Ha & Hb & _ & Hsame).
  set (r1 := patch_row _ _ r) in *.
  assert (Hid1 : r1 !! "id" = Some (field req2 "logId")).
  { rewrite Hlog, Hsame by done. exact Hid. }
  destruct (closed_row t2 (field req2 "durationSeconds") (field req2 "notas")
              _ r1 Hd2 Hid1) as (Hc & He & _ & _).
  eexists r1, _. split_and!; [ | exact Ha | exact Hb | | exact Hc | exact He].
  - rewrite Hf1. simpl. by rewrite list_lookup_fmap, Hr.
  - rewrite Hf2, Hf1. simpl. by rewrite !list_lookup_fmap, Hr.
Qed.

Lemma end_session_overwrites_witness :
  let defaults : string → nat → row := λ _ n, {[ "id" := num_of_nat n ]} in
  let r : row := {[ "id" := num_of_nat 5;
                    "fecha_inicio" := JStr "2025-01-01T00:00:00.000Z" ]} in
  let req1 := mkRequest ∅ (Some {[ "logId" := num_of_nat 5;
                                   "durationSeconds" := num_of_nat 60 ]}) in
  let req2 := mkRequest ∅ (Some {[ "logId" := num_of_nat 5;
                                   "durationSeconds" := num_of_nat 90 ]}) in
  let first := run (memory_world defaults "2025-01-01T00:01:00.000Z")
                   (handler EndSession req1) (mkDB [] [r] 6) in
  let second := run (memory_world defaults "2025-01-01T00:01:30.000Z")
                    (handler EndSession req2) (final first) in
  ∃ r1 r2,
    habit_logs (final first) !! 0 = Some r1 ∧
    r1 !! "fecha_fin" = Some (JStr "2025-01-01T00:01:00.000Z") ∧
    r1 !! "duracion_segundos" = Some (wire (field req1 "durationSeconds")) ∧
    habit_logs (final second) !! 0 = Some r2 ∧
    r2 !! "fecha_fin" = Some (JStr "2025-01-01T00:01:30.000Z") ∧
    r2 !! "duracion_segundos" = Some (wire (field req2 "durationSeconds")).
Proof.
  intros defaults r req1 req2.
  apply (proj2 (end_session_overwrites defaults _ _ (mkDB [] [r] 6) req1 req2
                  eq_refl eq_refl eq_refl eq_refl) 0 r);
    vm_compute; reflexivity.
Defined.

(** X8: ending a session that does not exist.  A valid end-session
    request whose [logId] is the [id] of no [habit_logs] row is still
    answered 200 with the confirmation message, and the reference store
    is left exactly as it was: the handler does not check that a row was
    updated. *)
Theorem end_session_unknown_id (defaults : string → nat → row) (t : string)
    (db : DB) (req : Request) :
  truthy (field req "logId") = true →
  is_undefined (field req "durationSeconds") = false →
  (∀ r, r ∈ habit_logs db → r !! "id" ≠ Some (field req "logId")) →
  let res := run (memory_world defaults t) (handler EndSession req) db in
  returned res =
    Done (res_json 200 (message_obj "Sesión finalizada correctamente")) ∧
  final res = db.
Proof.
  intros Hl Hd Hnone res.
  destruct (end_session_memory defaults t db req Hl Hd) as [Hresp Hfinal].
  fold res in Hresp, Hfinal. split; [exact Hresp | ].
  rewrite Hfinal, patch_rows_other by done. by destruct db.
Qed.

Lemma end_session_unknown_id_witness :
  let defaults : string → nat → row := λ _ n, {[ "id" := num_of_nat n ]} in
  let db := mkDB [] [{[ "id" := num_of_nat 1 ]}] 2 in
  let req := mkRequest ∅ (Some {[ "logId" := num_of_nat 9;
                                  "durationSeconds" := num_of_nat 60 ]}) in
  let res := run (memory_world defaults "2025-01-01T00:01:00.000Z")
                 (handler EndSession req) db in
  returned res =
    Done (res_json 200 (message_obj "Sesión finalizada correctamente")) ∧
  final res = db.
Proof.
  intros defaults db req.
  apply (end_session_unknown_id defaults _ db req);
    try (vm_compute; reflexivity).
  intros r Hr. apply list_elem_of_singleton in Hr as ->.
  vm_compute. discriminate.
Defined.

(** * Routing and start-up *)

Section DispatchFacts.

Variable decode : string → option string.




(** The second listing answers as the first wherever its added route
    does not take the request. *)
Lemma dispatch_full_index (m : Method) (path : string)
    (json : option (gmap string value)) :
  m ≠ POST ∨ match_path decode "/habits" path = NoMatch →
  dispatch decode app_full (mkHttp m path json) =
  dispatch decode app_index (mkHttp m path json).
Proof.
  destruct (literal_routes_decode decode path) as (_ & L1 & _).
  intros H.
  cbn [dispatch app_index app_full route_pattern route_method route_handler
       http_path http_method http_json].
  destruct (match_path decode "/habits" path) as [ | | ps] eqn:Hm; [done | done | ].
  destruct H as [Hne | ?]; [ | done].
  by destruct m.
Qed.

End DispatchFacts.

(** X10: the second listing extends the first.  Every request a route
    of [src/index.js] takes is taken by the second listing with the same
    handler and the same [req]; the two differ only on a POST whose path
    matches [/habits], which the first listing leaves without a route
    (404) and the second hands to the create handler. *)
Theorem second_listing_extends_first (decode : string → option string)
    (hreq : HttpRequest) :
  (∀ p, dispatch decode app_index hreq = Handled p →
        dispatch decode app_full hreq = Handled p) ∧
  (∀ ps, http_method hreq = POST →
         match_path decode "/habits" (http_path hreq) = Matched ps →
         dispatch decode app_index hreq = NotFound ∧
         dispatch decode app_full hreq =
           Handled (create_habit_handler (mkRequest ps (http_json hreq)))) ∧
  (http_method hreq ≠ POST ∨
   (∀ ps, match_path decode "/habits" (http_path hreq) ≠ Matched ps) →
   dispatch decode app_full hreq = dispatch decode app_index hreq).
Proof.
  destruct hreq as [m path json]. cbn [http_method http_path http_json].
  destruct (literal_routes_decode decode path) as (_ & L1 & _).
  assert (Hpost : ∀ ps, match_path decode "/habits" path = Matched ps →
            dispatch decode app_index (mkHttp m path json) = NotFound ∧
            (m = POST →
             dispatch decode app_full (mkHttp m path json) =
               Handled (create_habit_handler (mkRequest ps json)))).
  { intros ps Hm.
    destruct (habits_route_exclusive decode path ps Hm) as (E0 & E1 & E2 & E3 & E4).
    cbn [dispatch app_index app_full route_pattern route_method route_handler
         http_path http_method http_json].
    rewrite E0, E1, E2, E3, E4, Hm. split; [done | by intros ->]. }
  split_and!.
  - intros p Hp.
    destruct (match_path decode "/habits" path) as [ | | ps] eqn:Hm.
    + rewrite dispatch_full_index; [done | by right].
    + done.
    + destruct (Hpost ps eq_refl) as [Hnone _]. by rewrite Hnone in Hp.
  - intros ps -> Hm. destruct (Hpost ps Hm) as [H1 H2]. split; [done | by apply H2].
  - intros [Hne | Hm]; apply dispatch_full_index; [by left | right].
    destruct (match_path decode "/habits" path) as [ | | ps]; [done | done | ].
    by destruct (Hm ps).
Qed.

Lemma second_listing_extends_first_witness :
  let json : option (gmap string value) :=
    Some {[ "userId" := JStr "u1"; "nombre" := JStr "Leer";
            "tipoRegistro" := JStr "counter" ]} in
  dispatch Some app_index (mkHttp POST "/habits" json) = NotFound ∧
  dispatch Some app_full (mkHttp POST "/habits" json) =
    Handled (create_habit_handler (mkRequest ∅ json)).
Proof.
  intros json.
  apply (proj1 (proj2 (second_listing_extends_first Some
                         (mkHttp POST "/habits" json))) ∅ eq_refl).
  vm_compute. reflexivity.
Defined.



(** X12: the process gets to [app.listen] only with both store
    settings and a client that could be created.  When [SUPABASE_URL] or
    [SUPABASE_SERVICE_ROLE_KEY] is unset or empty it exits with code 1
    after two lines on the error stream, without calling [createClient],
    and it exits in no other case.  Otherwise it calls [createClient]
    with exactly these two strings: when that throws, the process dies
    with that error and never listens; when it returns, [app.listen] is
    called with [PORT], or with 3000 when [PORT] is unset or empty. *)
Theorem startup_requires_store_settings
    (create_client : value → value → outcome unit) (env : gmap string string) :
  let unset name := env !! name = None ∨ env !! name = Some "" in
  let set name v := ∃ s, env !! name = Some s ∧ s ≠ "" ∧ v = JStr s in
  (unset "SUPABASE_URL" ∨ unset "SUPABASE_SERVICE_ROLE_KEY" →
   ∃ lines, length lines = 2 ∧
     ∀ other, startup other env = Exited 1 lines) ∧
  (∀ code lines, startup create_client env = Exited code lines →
     unset "SUPABASE_URL" ∨ unset "SUPABASE_SERVICE_ROLE_KEY") ∧
  (∀ port, startup create_client env = Listen port →
     (∃ url key, set "SUPABASE_URL" url ∧ set "SUPABASE_SERVICE_ROLE_KEY" key ∧
                 create_client url key = Done tt) ∧
     port = (match env !! "PORT" with
             | Some s => if String.eqb s "" then num_of_nat 3000 else JStr s
             | None => num_of_nat 3000
             end)) ∧
  (∀ m, startup create_client env = Crashed m →
     ∃ url key, set "SUPABASE_URL" url ∧ set "SUPABASE_SERVICE_ROLE_KEY" key ∧
                create_client url key = Thrown m).
Proof.
  intros unset set. subst unset set. unfold startup, env_var, js_not, js_or.
  destruct (env !! "SUPABASE_URL") as [u | ] eqn:Hu;
    destruct (env !! "SUPABASE_SERVICE_ROLE_KEY") as [k | ] eqn:Hk;
    simpl; bool_simpl.
  - destruct u as [ | cu u], k as [ | ck k]; simpl.
    + split_and!; [eexists; split; [ | by intros]; done | auto | done | done].
    + split_and!; [eexists; split; [ | by intros]; done | auto | done | done].
    + split_and!; [eexists; split; [ | by intros]; done | auto | done | done].
    + destruct (create_client _ _) as [[] | m0] eqn:Hc.
      * split_and!; [ | done | | done].
        -- intros [[? | ?] | [? | ?]]; done.
        -- intros port [= <-]. split.
           ++ eexists _, _. split_and!; [by eexists | by eexists | exact Hc].
           ++ destruct (env !! "PORT") as [s | ]; [ | done]. by destruct s.
      * split_and!; [ | done | done | ].
        -- intros [[? | ?] | [? | ?]]; done.
        -- intros m [= <-].
           eexists _, _. split_and!; [by eexists | by eexists | exact Hc].
  - split_and!; [eexists; split; [ | by intros]; done | auto | done | done].
  - split_and!; [eexists; split; [ | by intros]; done | auto | done | done].
  - split_and!; [eexists; split; [ | by intros]; done | auto | done | done].
Qed.

Lemma startup_requires_store_settings_witness :
  (∃ lines, length lines = 2 ∧
     ∀ other, startup other {[ "SUPABASE_URL" := "https://x.supabase.co";
                               "SUPABASE_SERVICE_ROLE_KEY" := "" ]}
              = Exited 1 lines) ∧
  startup (λ _ _, Thrown "Invalid supabaseUrl")
          {[ "SUPABASE_URL" := "not-a-url";
             "SUPABASE_SERVICE_ROLE_KEY" := "secret" ]}
  = Crashed "Invalid supabaseUrl".
Proof.
  split.
  - apply (proj1 (startup_requires_store_settings (λ _ _, Done tt)
                    {[ "SUPABASE_URL" := "https://x.supabase.co";
                       "SUPABASE_SERVICE_ROLE_KEY" := "" ]})).
    right. right. vm_compute. reflexivity.
  - vm_compute. reflexivity.
Defined.
